(** * Verification of the analysis engine of the AI service

    Shallow embedding of [ai-service/src/services/ai_service.py]:
    the heuristic analysis [_generate_mock_analysis], the start-up probe
    [initialize] and the shutdown hook [cleanup] of class [AIService].

    - [Float64]: the float arithmetic Python performs (IEEE 754 binary64,
      round to nearest, ties to even), on the rational values of floats.
    - [Py]: the values of the program (numbers, text, lists, dicts), the
      string and dict operations the analysis uses, exceptions.
    - [Service]: the class itself.
    - [Report]: how a report is read, and the inputs the statements name.

    The facts about rounding, text, the analysis and the life cycle follow,
    then the properties of the specification, one by one. *)

From Stdlib Require Import ZArith QArith Qround Qpower Qreduction.
From Stdlib Require Import Lia Lqa Bool List String Ascii DecimalString.
From Stdlib Require Floats.SpecFloat.
From Stdlib Require Import Permutation.
Import ListNotations.

(** * Binary64 arithmetic *)

Module Float64.

Local Open Scope Q_scope.

(** A finite float is modelled by the rational it denotes.  An arithmetic
    operation of Python computes the exact rational result and rounds it to
    the nearest float, ties to the even significand: [RN].  No value the
    analysis forms exceeds 200 (see [AnalysisFacts.emotional_regulation_range]),
    far from the overflow threshold, so infinities and NaN never arise and
    are not represented. *)

Definition prec : Z := 53.
Definition emin : Z := -1074.

(** Nearest integer, ties to even. *)
Definition round_half_even (q : Q) : Z :=
  let f := Qfloor q in
  match Qcompare (q - inject_Z f) (1 # 2) with
  | Lt => f
  | Gt => (f + 1)%Z
  | Eq => if Z.even f then f else (f + 1)%Z
  end.

(** Binary magnitude of a positive rational: [2^(mag x - 1) <= x < 2^(mag x)]. *)
Definition mag (x : Q) : Z :=
  let k := (Z.log2 (Qnum x) - Z.log2 (Zpos (Qden x)))%Z in
  if Qle_bool (2 ^ k) x then (k + 1)%Z else k.

(** Exponent of the unit in the last place at [x]; subnormals share [emin]. *)
Definition fexp (x : Q) : Z := Z.max (mag x - prec) emin.

Definition rnd_pos (x : Q) : Q :=
  let e := fexp x in
  Qred (inject_Z (round_half_even (x / 2 ^ e)) * 2 ^ e).

Definition RN (x : Q) : Q :=
  match Qnum x with
  | Z0 => 0
  | Zpos _ => rnd_pos x
  | Zneg _ => Qred (- rnd_pos (- x))
  end.

(** The float operations of the program. *)
Definition fdiv (x y : Q) : Q := RN (x / y).
Definition fmul (x y : Q) : Q := RN (x * y).
Definition fadd (x y : Q) : Q := RN (x + y).
Definition fsub (x y : Q) : Q := RN (x - y).

(** [round(x, 1)] on a float: the exact value of [x] is rounded to one
    decimal, ties to even, and the decimal is converted back to the nearest
    float (CPython's [double_round]). *)
Definition round1 (x : Q) : Q := RN (inject_Z (round_half_even (x * 10)) / 10).

(** [round(x)] on a float: the nearest integer, ties to even, as an int. *)
Definition round0 (x : Q) : Z := round_half_even x.

(** The same fraction, numerator and denominator. *)
Definition Q_same (a b : Q) : bool :=
  Z.eqb (Qnum a) (Qnum b) && Pos.eqb (Qden a) (Qden b).

(** The float nearest to [k / 10] is left alone by [round(_, 1)]. *)
Definition tenth_fixed (k : Z) : bool :=
  Q_same (round1 (RN (inject_Z k / 10))) (RN (inject_Z k / 10)).

End Float64.

(** Floats as the reference model of IEEE 754 in the standard library has
    them, to compare [RN] with on concrete operands. *)
Module Reference.

Import SpecFloat.

Definition of_int (n : Z) : spec_float := binary_normalize 53 1024 n 0 false.

Definition to_Q (f : spec_float) : option Q :=
  match f with
  | S754_zero _ => Some 0%Q
  | S754_finite s m e =>
      Some (Qred (inject_Z (if s then Z.neg m else Z.pos m) * 2 ^ e))
  | _ => None
  end.

Definition div := SFdiv 53 1024.
Definition mul := SFmul 53 1024.
Definition add := SFadd 53 1024.
Definition sub := SFsub 53 1024.

(** [count / total * 100], its complement to 100 and its product by [1.2],
    computed in the reference model and by [RN]: do they agree? *)
Definition percent (count total : Z) : spec_float :=
  mul (div (of_int count) (of_int total)) (of_int 100).

Definition agree (f : spec_float) (x : Q) : bool :=
  match to_Q f with
  | Some y => Float64.Q_same y x
  | None => false
  end.

Definition scores_agree (count total : Z) : bool :=
  let p := Float64.fmul (Float64.fdiv (inject_Z count) (inject_Z total)) 100 in
  agree (percent count total) p
  && agree (sub (of_int 100) (percent count total)) (Float64.fsub 100 p)
  && agree (mul (percent count total) (div (of_int 12) (of_int 10)))
           (Float64.fmul p (Float64.RN (12 # 10)))
  && agree (div (add (percent count total) (sub (of_int 100) (percent count total)))
                (of_int 2))
           (Float64.fdiv (Float64.fadd p (Float64.fsub 100 p)) 2).

Definition scores_agree_upto (n : nat) : bool :=
  forallb (fun total =>
             forallb (fun count => scores_agree (Z.of_nat count) (Z.of_nat total))
                     (List.seq 0 (S total)))
          (List.seq 1 n).

End Reference.

(** * Python values *)

Module Py.

Import Float64.
Local Open Scope string_scope.
#[local] Set Warnings "-register-all".

Inductive value :=
| VNone
| VBool (b : bool)
| VInt (n : Z)
| VFloat (x : Q)
| VStr (s : string)
| VList (l : list value)
| VDict (d : list (string * value)).

(** A dict keeps its items in insertion order; every key the program looks
    up or stores is a string. *)
Definition dict := list (string * value).

Fixpoint lookup (d : dict) (key : string) : option value :=
  match d with
  | [] => None
  | (k, v) :: rest => if String.eqb k key then Some v else lookup rest key
  end.

(** [d.get(key, default)] *)
Definition get (d : dict) (key : string) (default : value) : value :=
  match lookup d key with
  | Some v => v
  | None => default
  end.

(** [d[key] = v] *)
Fixpoint setitem (d : dict) (key : string) (v : value) : dict :=
  match d with
  | [] => [(key, v)]
  | (k, w) :: rest =>
      if String.eqb k key then (k, v) :: rest else (k, w) :: setitem rest key v
  end.

(** Exceptions.  All but [CancelledError], which derives from
    [BaseException] alone since Python 3.8, derive from [Exception]. *)
Inductive exn :=
| AttributeError
| ZeroDivisionError
| OpenAIError
| AuthenticationError
| APIConnectionError
| RateLimitError
| APITimeoutError
| CancelledError.

Definition is_Exception (e : exn) : bool :=
  match e with
  | CancelledError => false
  | _ => true
  end.

Inductive outcome (A : Type) :=
| Return (a : A)
| Raise (e : exn).
Arguments Return {A} a.
Arguments Raise {A} e.

Definition bind {A B} (m : outcome A) (f : A -> outcome B) : outcome B :=
  match m with
  | Return a => f a
  | Raise e => Raise e
  end.

(** ** Text *)

(** Text is held as its bytes.  [str.lower] maps the letters A-Z to a-z; the
    keywords searched for are lower-case ASCII without [i] or [k], the only
    ASCII letters a non-ASCII character can lower to, so membership of a
    keyword is the same on the bytes as on the code points. *)
Definition lower_char (c : ascii) : ascii :=
  let n := N_of_ascii c in
  if ((65 <=? n) && (n <=? 90))%N then ascii_of_N (n + 32) else c.

Fixpoint lower (s : string) : string :=
  match s with
  | EmptyString => EmptyString
  | String c rest => String (lower_char c) (lower rest)
  end.

(** [word in text] *)
Fixpoint contains (word text : string) : bool :=
  prefix word text
  || match text with
     | EmptyString => false
     | String _ rest => contains word rest
     end.

(** [v.lower()]: only text has the method. *)
Definition str_lower (v : value) : outcome string :=
  match v with
  | VStr s => Return (lower s)
  | _ => Raise AttributeError
  end.

(** [str(n)] of an int *)
Definition str_of_int (n : Z) : string := NilZero.string_of_int (Z.to_int n).

(** ** Numbers *)

Local Open Scope Q_scope.

Inductive number :=
| Int (n : Z)
| Float (x : Q).

Definition num_val (n : number) : Q :=
  match n with
  | Int z => inject_Z z
  | Float x => x
  end.

Definition of_number (n : number) : value :=
  match n with
  | Int z => VInt z
  | Float x => VFloat x
  end.

(** An int operand of a float operation is converted to float first. *)
Definition to_float (n : number) : Q :=
  match n with
  | Int z => RN (inject_Z z)
  | Float x => x
  end.

(** [a / b] on ints: the correctly rounded quotient; a zero divisor raises. *)
Definition int_truediv (a b : Z) : outcome Q :=
  if (b =? 0)%Z then Raise ZeroDivisionError
  else Return (fdiv (inject_Z a) (inject_Z b)).

(** [max(a, b)] keeps [a] unless [b] is greater; [min(a, b)] keeps [a]
    unless [b] is less.  Ints and floats compare by value. *)
Definition py_max (a b : number) : number :=
  match Qcompare (num_val a) (num_val b) with
  | Lt => b
  | _ => a
  end.

Definition py_min (a b : number) : number :=
  match Qcompare (num_val b) (num_val a) with
  | Lt => b
  | _ => a
  end.

(** [round(n, 1)]: an int is returned as it is. *)
Definition py_round1 (n : number) : number :=
  match n with
  | Int z => Int z
  | Float x => Float (round1 x)
  end.

(** [round(n)] *)
Definition py_round (n : number) : Z :=
  match n with
  | Int z => z
  | Float x => round0 x
  end.

End Py.

Notation "x <- m ;; k" := (Py.bind m (fun x => k))
  (at level 61, m at next level, right associativity).

(** * The service *)

Module Service.

Import Float64 Py.
Local Open Scope string_scope.

(** ** Engine state, configuration, backend *)

(** The handle [AsyncOpenAI(api_key=...)] returns. *)
Record Client := { api_key : string }.

(** [self]: of the attributes [__init__] sets, the methods below read and
    write [client] only. *)
Record AIService := { client : option Client }.

(** [AIService()] *)
Definition new_AIService : AIService := {| client := None |}.

(** [config.settings], a module outside this file: the two settings read. *)
Record Settings := {
  FEATURE_REAL_AI : bool;
  OPENAI_API_KEY : string
}.

(** What the OpenAI library does when called: [None] for a normal return,
    [Some e] when it raises [e]. *)
Record Backend := {
  construct : string -> option exn;
  chat_completions_create : Client -> option exn;
  close : Client -> option exn
}.

(** The calls into the OpenAI library and the logger, in the order they are
    made (log texts without their leading emoji). *)
Inductive event :=
| Constructed (key : string)
| Probed (c : Client)
| Closed (c : Client)
| LogInfo (msg : string)
| LogWarning (msg : string) (e : exn).

Record world := { this : AIService; trace : list event }.

(** A method: reads the backend, transforms the world, returns or raises. *)
Definition M (A : Type) : Type := Backend -> world -> outcome A * world.

Definition ret {A} (a : A) : M A := fun _ w => (Return a, w).

Definition seq {A B} (m : M A) (f : A -> M B) : M B :=
  fun b w =>
    match m b w with
    | (Return a, w') => f a b w'
    | (Raise e, w') => (Raise e, w')
    end.

(** [try: body  except Exception as e: handler(e)] *)
Definition try_except_Exception {A} (body : M A) (handler : exn -> M A) : M A :=
  fun b w =>
    match body b w with
    | (Return a, w') => (Return a, w')
    | (Raise e, w') => if is_Exception e then handler e b w' else (Raise e, w')
    end.

Definition emit (ev : event) : M unit :=
  fun _ w => (Return tt, {| this := this w; trace := trace w ++ [ev] |}).

Definition call (ev : event) (result : Backend -> option exn) : M unit :=
  seq (emit ev) (fun _ b w =>
    match result b with
    | None => (Return tt, w)
    | Some e => (Raise e, w)
    end).

Definition get_client : M (option Client) := fun _ w => (Return (client (this w)), w).

Definition set_client (c : option Client) : M unit :=
  fun _ w => (Return tt, {| this := {| client := c |}; trace := trace w |}).

Definition AsyncOpenAI (key : string) : M Client :=
  seq (call (Constructed key) (fun b => construct b key))
      (fun _ => ret {| api_key := key |}).

Definition logger_info (msg : string) : M unit := emit (LogInfo msg).

Definition logger_warning (msg : string) (e : exn) : M unit := emit (LogWarning msg e).

(** ** [initialize] *)

Definition initialize (settings : Settings) : M unit :=
  try_except_Exception
    (if FEATURE_REAL_AI settings && negb (String.eqb (OPENAI_API_KEY settings) "demo-key")
     then
       seq (AsyncOpenAI (OPENAI_API_KEY settings)) (fun c =>
       seq (set_client (Some c)) (fun _ =>
       seq (call (Probed c) (fun b => chat_completions_create b c)) (fun _ =>
       logger_info "OpenAI API connection verified")))
     else
       logger_info "Using mock AI responses (demo mode)")
    (fun e =>
       seq (logger_warning "OpenAI API not available, using mock responses" e) (fun _ =>
       set_client None)).

(** ** [cleanup] *)

Definition cleanup : M unit :=
  seq get_client (fun cur =>
    match cur with
    | Some c => call (Closed c) (fun b => close b c)
    | None => ret tt
    end).

(** Running a method on an engine, from an empty trace. *)
Definition run {A} (m : M A) (b : Backend) (s : AIService) : outcome A * world :=
  m b {| this := s; trace := [] |}.

Definition probes (t : list event) : nat :=
  List.length (filter (fun ev => match ev with Probed _ => true | _ => false end) t).

Definition constructions (t : list event) : nat :=
  List.length (filter (fun ev => match ev with Constructed _ => true | _ => false end) t).

Definition releases (t : list event) : nat :=
  List.length (filter (fun ev => match ev with Closed _ => true | _ => false end) t).

(** ** [_generate_mock_analysis] *)

Definition empathy_words : list string := ["understand"; "feel"; "sorry"; "hear"].

Definition defensive_words : list string := ["wrong"; "not"; "but"; "however"].

(** [any(word in exchange.get("user_message", "").lower() for word in words)];
    the message is fetched and lowered anew for every word tried. *)
Fixpoint any_word_in (words : list string) (exchange : dict) : outcome bool :=
  match words with
  | [] => Return false
  | word :: rest =>
      text <- str_lower (get exchange "user_message" (VStr "")) ;;
      if contains word text then Return true else any_word_in rest exchange
  end.

(** [sum(1 for exchange in history if cond(exchange))] *)
Fixpoint sum_1_if (cond : dict -> outcome bool) (history : list dict) : outcome Z :=
  match history with
  | [] => Return 0%Z
  | exchange :: rest =>
      b <- cond exchange ;;
      n <- sum_1_if cond rest ;;
      Return (if b then (1 + n)%Z else n)
  end.

Definition insights : list value := [
  VStr "User showed improved empathetic responding during conflict";
  VStr "Stress levels decreased as conversation progressed";
  VStr "Neural pathways for emotional regulation strengthened";
  VStr "Communication pattern shifted from defensive to collaborative"
].

Definition recommendations : list value := [
  VStr "Continue practicing active listening techniques";
  VStr "Focus on emotional validation before problem-solving";
  VStr "Develop pause-and-reflect responses to reduce reactivity";
  VStr "Practice perspective-taking exercises"
].

(** The float literal [1.2]. *)
Definition lit_1_2 : Q := RN (12 # 10).

Definition _generate_mock_analysis (self : AIService)
    (conversation_history : list dict) (neural_data : option dict) : outcome value :=
  let total_exchanges := Z.of_nat (List.length conversation_history) in
  empathetic_responses <- sum_1_if (any_word_in empathy_words) conversation_history ;;
  defensive_responses <- sum_1_if (any_word_in defensive_words) conversation_history ;;
  empathetic_share <- int_truediv empathetic_responses (Z.max total_exchanges 1) ;;
  let empathy_score := fmul empathetic_share 100 in
  defensive_share <- int_truediv defensive_responses (Z.max total_exchanges 1) ;;
  let stress_reduction :=
    py_max (Int 20) (Float (fsub 100 (fmul defensive_share 100))) in
  let analysis : dict := [
    ("conversation_summary", VDict [
       ("total_exchanges", VInt total_exchanges);
       ("empathetic_responses", VInt empathetic_responses);
       ("defensive_responses", VInt defensive_responses);
       ("communication_pattern",
        VStr (if (empathetic_responses >? defensive_responses)%Z
              then "improving" else "needs_work"))
     ]);
    ("metrics", VDict [
       ("empathy_score", of_number (py_round1 (Float empathy_score)));
       ("stress_reduction", of_number (py_round1 stress_reduction));
       ("emotional_regulation",
        of_number (py_round1 (Float (fdiv (fadd empathy_score (to_float stress_reduction)) 2))));
       ("communication_effectiveness",
        of_number (py_round1 (py_min (Int 95) (Float (fmul empathy_score lit_1_2)))))
     ]);
    ("insights", VList insights);
    ("recommendations", VList recommendations);
    ("neural_improvements", VDict [
       ("new_pathways_formed", VInt (total_exchanges * 3 + empathetic_responses * 2));
       ("stress_response_reduction", VStr (str_of_int (py_round stress_reduction) ++ "%"));
       ("empathy_network_strengthening", VStr (str_of_int (py_round (Float empathy_score)) ++ "%"));
       ("prefrontal_cortex_activation", VStr "increased by 34%")
     ])
  ] in
  Return (VDict
    match neural_data with
    | Some ((_ :: _) as neural_data) =>
        setitem analysis "neural_correlation" (VDict [
          ("avg_stress_during_training", get neural_data "avg_stress" (VInt 35));
          ("peak_empathy_activation", get neural_data "peak_empathy" (VInt 82));
          ("emotional_regulation_consistency", get neural_data "regulation" (VInt 78))
        ])
    | _ => analysis
    end).

End Service.

(** * Reading a report *)

Module Report.

Import Float64 Py Service.
Local Open Scope string_scope.

(** [r[k1][k2]...] *)
Fixpoint field (path : list string) (r : value) : option value :=
  match path with
  | [] => Some r
  | k :: rest =>
      match r with
      | VDict d =>
          match lookup d k with
          | Some v => field rest v
          | None => None
          end
      | _ => None
      end
  end.

Definition as_number (v : value) : option number :=
  match v with
  | VInt z => Some (Int z)
  | VFloat x => Some (Float x)
  | _ => None
  end.

Definition metric (name : string) (r : value) : option number :=
  match field ["metrics"; name] r with
  | Some v => as_number v
  | None => None
  end.

Definition summary (name : string) (r : value) : option value :=
  field ["conversation_summary"; name] r.

Definition metric_names : list string :=
  ["empathy_score"; "stress_reduction"; "emotional_regulation"; "communication_effectiveness"].

Definition is_int (o : option value) : bool :=
  match o with Some (VInt _) => true | _ => false end.

Definition is_num (o : option value) : bool :=
  match o with Some (VInt _) | Some (VFloat _) => true | _ => false end.

Definition is_text (o : option value) : bool :=
  match o with Some (VStr _) => true | _ => false end.

Definition is_list (o : option value) : bool :=
  match o with Some (VList _) => true | _ => false end.

Definition is_pattern (o : option value) : bool :=
  match o with
  | Some (VStr s) => String.eqb s "improving" || String.eqb s "needs_work"
  | _ => false
  end.

(** Every required key of a report is there, with a value of its kind. *)
Definition structurally_complete (r : value) : bool :=
  is_int (summary "total_exchanges" r)
  && is_int (summary "empathetic_responses" r)
  && is_int (summary "defensive_responses" r)
  && is_pattern (summary "communication_pattern" r)
  && forallb (fun m => is_num (field ["metrics"; m] r)) metric_names
  && is_list (field ["insights"] r)
  && is_list (field ["recommendations"] r)
  && is_int (field ["neural_improvements"; "new_pathways_formed"] r)
  && is_text (field ["neural_improvements"; "stress_response_reduction"] r)
  && is_text (field ["neural_improvements"; "empathy_network_strengthening"] r)
  && is_text (field ["neural_improvements"; "prefrontal_cortex_activation"] r).

(** A number with one decimal at most: rounding it to one decimal gives
    the number itself. *)
Definition one_decimal (n : number) : Prop := py_round1 n = n.

(** An exchange whose [user_message], when it has one, is text. *)
Definition text_message (exchange : dict) : bool :=
  match lookup exchange "user_message" with
  | None | Some (VStr _) => true
  | Some _ => false
  end.

Definition text_history (history : list dict) : Prop :=
  forallb text_message history = true.

(** The text the analysis scans in an exchange. *)
Definition scanned (exchange : dict) : string :=
  match lookup exchange "user_message" with
  | Some (VStr s) => lower s
  | _ => ""
  end.

Definition mentions (words : list string) (exchange : dict) : bool :=
  existsb (fun word => contains word (scanned exchange)) words.

Definition count_mentions (words : list string) (history : list dict) : Z :=
  Z.of_nat (List.length (filter (mentions words) history)).

(** What the report holds under [neural_correlation] for a telemetry dict:
    each signal supplied, else its default. *)
Definition signal (telemetry : dict) (key : string) (default : Z) : value :=
  match lookup telemetry key with
  | Some v => v
  | None => VInt default
  end.

Definition correlation_of (telemetry : dict) : value :=
  VDict [
    ("avg_stress_during_training", signal telemetry "avg_stress" 35);
    ("peak_empathy_activation", signal telemetry "peak_empathy" 82);
    ("emotional_regulation_consistency", signal telemetry "regulation" 78)
  ].

(** [count / max(total, 1)], the float. *)
Definition share (count total : Z) : Q :=
  fdiv (inject_Z count) (inject_Z (Z.max total 1)).

(** The scores before rounding, from the counts. *)
Definition empathy_score_of (empathetic total : Z) : Q :=
  fmul (share empathetic total) 100.

Definition stress_reduction_of (defensive total : Z) : number :=
  py_max (Int 20) (Float (fsub 100 (fmul (share defensive total) 100))).

Definition emotional_regulation_of (empathetic defensive total : Z) : Q :=
  fdiv (fadd (empathy_score_of empathetic total)
             (to_float (stress_reduction_of defensive total))) 2.

Definition communication_effectiveness_of (empathetic total : Z) : number :=
  py_min (Int 95) (Float (fmul (empathy_score_of empathetic total) lit_1_2)).

(** The report [r] reads as the analysis of [total] exchanges of which
    [e] mention an empathy word and [d] a defensive word, with telemetry
    [nd]. *)
Record reads (r : value) (total e d : Z) (nd : option dict) : Prop := {
  reads_total : summary "total_exchanges" r = Some (VInt total);
  reads_empathetic : summary "empathetic_responses" r = Some (VInt e);
  reads_defensive : summary "defensive_responses" r = Some (VInt d);
  reads_pattern :
    summary "communication_pattern" r
    = Some (VStr (if (e >? d)%Z then "improving" else "needs_work"));
  reads_empathy_score :
    metric "empathy_score" r = Some (py_round1 (Float (empathy_score_of e total)));
  reads_stress_reduction :
    metric "stress_reduction" r = Some (py_round1 (stress_reduction_of d total));
  reads_emotional_regulation :
    metric "emotional_regulation" r
    = Some (py_round1 (Float (emotional_regulation_of e d total)));
  reads_communication_effectiveness :
    metric "communication_effectiveness" r
    = Some (py_round1 (communication_effectiveness_of e total));
  reads_pathways :
    field ["neural_improvements"; "new_pathways_formed"] r
    = Some (VInt (total * 3 + e * 2));
  reads_complete : structurally_complete r = true;
  reads_correlation :
    field ["neural_correlation"] r
    = match nd with
      | Some ((_ :: _) as telemetry) => Some (correlation_of telemetry)
      | _ => None
      end
}.

(** ** Settings and engines named in the statements *)

(** The configuration allows the live backend. *)
Definition live_usage (settings : Settings) : Prop :=
  FEATURE_REAL_AI settings = true /\ OPENAI_API_KEY settings <> "demo-key".

(** [n] calls of [cleanup] in a row. *)
Fixpoint cleanups (n : nat) : M unit :=
  match n with
  | O => ret tt
  | S k => seq cleanup (fun _ => cleanups k)
  end.

(** A backend on which every call succeeds, and an engine in live mode. *)
Definition healthy_backend : Backend :=
  {| construct := fun _ => None;
     chat_completions_create := fun _ => None;
     close := fun _ => None |}.

Definition live_engine : AIService := {| client := Some {| api_key := "sk-live" |} |}.

(** A backend whose probe times out, and two configurations. *)
Definition timing_out_backend : Backend :=
  {| construct := fun _ => None;
     chat_completions_create := fun _ => Some APITimeoutError;
     close := fun _ => None |}.

Definition live_settings : Settings :=
  {| FEATURE_REAL_AI := true; OPENAI_API_KEY := "sk-live" |}.

Definition demo_settings : Settings :=
  {| FEATURE_REAL_AI := true; OPENAI_API_KEY := "demo-key" |}.

(** The failures of the backend the specification names: authentication,
    network, quota, timeout. *)
Definition backend_failures : list exn :=
  [AuthenticationError; APIConnectionError; RateLimitError; APITimeoutError].

(** A history and a telemetry dict to try the statements on: three
    exchanges, one of them without [user_message]. *)
Definition sample_history : list dict := [
  [("user_message", VStr "I understand how you feel"); ("ai_response", VStr "Thank you")];
  [("ai_response", VStr "Are you there?")];
  [("user_message", VStr "But you are WRONG")]
].

Definition sample_telemetry : dict := [("peak_empathy", VFloat (181 # 2))].

Definition says (s : string) : dict := [("user_message", VStr s)].

(** Ten exchanges, four with an empathy word, two with a defensive word. *)
Definition ten_exchanges : list dict := [
  says "I understand"; says "I feel that"; says "so sorry"; says "I HEAR you";
  says "you are wrong"; says "however"; says "fine"; says "ok"; says "yes"; says "right"
].

(** A backend on which the probe is cancelled. *)
Definition cancelling_backend : Backend :=
  {| construct := fun _ => None;
     chat_completions_create := fun _ => Some CancelledError;
     close := fun _ => None |}.

(** A second [cleanup] after a first one releases nothing more. *)
Definition second_cleanup_is_noop (b : Backend) (s : AIService) : Prop :=
  let w1 := snd (run cleanup b s) in
  releases (trace (snd (cleanup b w1))) = releases (trace w1).

(** An empty telemetry dict gets the three defaults attached. *)
Definition empty_telemetry_gets_defaults (self : AIService) (history : list dict) : Prop :=
  exists r,
    _generate_mock_analysis self history (Some []) = Return r
    /\ field ["neural_correlation"] r = Some (correlation_of []).

End Report.

(** * The rest of the class *)

Module Engine.

Import Float64 Py Service Report.
Local Open Scope string_scope.

(** ** [__init__]: the other two attributes *)

Definition conversation_cache : dict := [].

Definition personality_templates : dict := [
  ("emotional", VDict [
     ("description", VStr "Expressive and emotionally driven communicator");
     ("traits", VList [VStr "emotional"; VStr "expressive"; VStr "sensitive"; VStr "reactive"]);
     ("communication_style",
      VStr "Uses emotional language, shares feelings openly, seeks emotional validation")
   ]);
  ("direct", VDict [
     ("description", VStr "Straightforward and blunt communicator");
     ("traits", VList [VStr "direct"; VStr "honest"; VStr "no-nonsense"; VStr "confrontational"]);
     ("communication_style",
      VStr "Speaks plainly, gets to the point, doesn't sugarcoat messages")
   ]);
  ("passive-aggressive", VDict [
     ("description", VStr "Indirect and subtly hostile communicator");
     ("traits", VList [VStr "indirect"; VStr "sarcastic"; VStr "resentful"; VStr "defensive"]);
     ("communication_style",
      VStr "Uses subtle digs, avoids direct confrontation, employs sarcasm")
   ]);
  ("logical", VDict [
     ("description", VStr "Analytical and fact-based communicator");
     ("traits", VList [VStr "logical"; VStr "analytical"; VStr "fact-focused"; VStr "methodical"]);
     ("communication_style",
      VStr "Focuses on facts and logic, seeks rational solutions, avoids emotional appeals")
   ])
].

(** ** Notions the further properties are stated with *)

(** One of [words] occurs in [text]. *)
Definition occurs_in (words : list string) (text : string) : Prop :=
  exists word before after, In word words /\ text = before ++ word ++ after.

(** The log entries of a trace, and the warnings among them. *)
Definition logs (t : list event) : nat :=
  List.length
    (filter (fun ev => match ev with LogInfo _ | LogWarning _ _ => true | _ => false end) t).

Definition warnings (t : list event) : nat :=
  List.length (filter (fun ev => match ev with LogWarning _ _ => true | _ => false end) t).

(** Construction or probe fails on this backend with these settings. *)
Definition attempt_fails (settings : Settings) (b : Backend) : Prop :=
  construct b (OPENAI_API_KEY settings) <> None
  \/ chat_completions_create b {| api_key := OPENAI_API_KEY settings |} <> None.

(** All that a backend raises derives from [Exception]. *)
Definition raises_Exceptions (b : Backend) : Prop :=
  (forall key e, construct b key = Some e -> is_Exception e = true)
  /\ (forall c e, chat_completions_create b c = Some e -> is_Exception e = true).

(** The keys of [neural_improvements] that hold a percentage. *)
Definition is_percent_between (lo hi : Z) (o : option value) : Prop :=
  exists k : Z, o = Some (VStr (str_of_int k ++ "%")) /\ (lo <= k <= hi)%Z.

(** A profile of the catalogue: two texts and four traits. *)
Definition is_profile (p : value) : bool :=
  is_text (field ["description"] p)
  && is_text (field ["communication_style"] p)
  && match field ["traits"] p with
     | Some (VList traits) =>
         Nat.eqb (List.length traits) 4
         && forallb (fun t => is_text (Some t)) traits
     | _ => false
     end.

(** ** Inputs to try the further properties on *)


Definition quiet_history : list dict := [
  [("user_message", VStr "i understand, however i disagree")];
  []
].


Definition failing_close_backend : Backend :=
  {| construct := fun _ => None;
     chat_completions_create := fun _ => None;
     close := fun _ => Some APIConnectionError |}.

End Engine.

Import Float64 Py Service Report Engine.

(** * Facts on binary64 rounding *)

Module Float64Facts.

Local Open Scope Q_scope.

(** ** Nearest integer *)

Lemma round_half_even_ext (x y : Q) : x == y -> round_half_even x = round_half_even y.
Proof.
  intros E. unfold round_half_even.
  rewrite (Qfloor_comp _ _ E).
  assert (C : Qcompare (x - inject_Z (Qfloor y)) (1 # 2) = Qcompare (y - inject_Z (Qfloor y)) (1 # 2))
    by (rewrite E; reflexivity).
  rewrite C. reflexivity.
Qed.

Lemma round_half_even_Z (n : Z) : round_half_even (inject_Z n) = n.
Proof.
  unfold round_half_even. rewrite Qfloor_Z.
  assert (C : Qcompare (inject_Z n - inject_Z n) (1 # 2) = Lt).
  { rewrite <- Qlt_alt. lra. }
  rewrite C. reflexivity.
Qed.

Lemma round_half_even_floor (q : Q) :
  (Qfloor q <= round_half_even q <= Qfloor q + 1)%Z.
Proof.
  unfold round_half_even.
  destruct (Qcompare _ _); [destruct (Z.even _)| |]; lia.
Qed.

Lemma round_half_even_mono (x y : Q) :
  x <= y -> (round_half_even x <= round_half_even y)%Z.
Proof.
  intros L.
  pose proof (Qfloor_resp_le _ _ L) as F.
  destruct (Z.eq_dec (Qfloor x) (Qfloor y)) as [E | N].
  - unfold round_half_even. rewrite E.
    destruct (Qcompare (x - inject_Z (Qfloor y)) (1 # 2)) eqn:Cx;
    destruct (Qcompare (y - inject_Z (Qfloor y)) (1 # 2)) eqn:Cy;
    try (destruct (Z.even (Qfloor y))); try lia; exfalso;
    try apply Qeq_alt in Cx; try apply Qeq_alt in Cy;
    try (rewrite <- Qlt_alt in Cx); try (rewrite <- Qlt_alt in Cy);
    try (rewrite <- Qgt_alt in Cx); try (rewrite <- Qgt_alt in Cy); lra.
  - pose proof (round_half_even_floor x). pose proof (round_half_even_floor y). lia.
Qed.

(** ** Powers of two and the magnitude *)

Lemma pow2_pos (z : Z) : 0 < 2 ^ z.
Proof. apply Qpower_0_lt. reflexivity. Qed.

Lemma pow2_add (a b : Z) : 2 ^ (a + b) == 2 ^ a * 2 ^ b.
Proof. apply Qpower_plus. discriminate. Qed.

Lemma pow2_Z (n : Z) : (0 <= n)%Z -> 2 ^ n == inject_Z (2 ^ n).
Proof. intros H. rewrite Zpower_Qpower by exact H. reflexivity. Qed.

Lemma pow2_le (a b : Z) : (a <= b)%Z -> 2 ^ a <= 2 ^ b.
Proof. intros H. apply Qpower_le_compat_l; [exact H | discriminate]. Qed.

Lemma pow2_lt_inv (a b : Z) : 2 ^ a < 2 ^ b -> (a < b)%Z.
Proof. intros H. apply (Qpower_lt_compat_l_inv 2); [exact H | reflexivity]. Qed.

Lemma Qmake_num_den (x : Q) : x * inject_Z (Zpos (Qden x)) == inject_Z (Qnum x).
Proof.
  destruct x as [a b]. unfold Qeq, Qmult, inject_Z. simpl. lia.
Qed.

Lemma mag_rough (x : Q) (k := (Z.log2 (Qnum x) - Z.log2 (Zpos (Qden x)))%Z) :
  0 < x -> 2 ^ (k - 1) < x /\ x < 2 ^ (k + 1).
Proof.
  intros Hx.
  assert (Ha : (0 < Qnum x)%Z).
  { destruct x as [a b]. unfold Qlt in Hx. simpl in *. lia. }
  set (la := Z.log2 (Qnum x)) in *. set (lb := Z.log2 (Zpos (Qden x))) in *.
  destruct (Z.log2_spec (Qnum x) Ha) as [A1 A2]. fold la in A1, A2.
  destruct (Z.log2_spec (Zpos (Qden x)) eq_refl) as [B1 B2]. fold lb in B1, B2.
  assert (La : (0 <= la)%Z) by apply Z.log2_nonneg.
  assert (Lb : (0 <= lb)%Z) by apply Z.log2_nonneg.
  pose proof (Qmake_num_den x) as E.
  split.
  - apply (Qmult_lt_r _ _ (2 ^ (lb + 1))); [apply pow2_pos|].
    rewrite <- pow2_add. replace (k - 1 + (lb + 1))%Z with la by (unfold k; lia).
    rewrite (pow2_Z la La).
    apply Qle_lt_trans with (inject_Z (Qnum x)).
    + rewrite <- Zle_Qle. exact A1.
    + rewrite <- E. apply Qmult_lt_l; [exact Hx|].
      rewrite (pow2_Z (lb + 1)) by lia. rewrite <- Zlt_Qlt.
      replace (lb + 1)%Z with (Z.succ lb) by lia. exact B2.
  - apply (Qmult_lt_r _ _ (2 ^ lb)); [apply pow2_pos|].
    rewrite <- pow2_add. replace (k + 1 + lb)%Z with (la + 1)%Z by (unfold k; lia).
    apply Qle_lt_trans with (inject_Z (Qnum x)).
    + rewrite <- E. apply Qmult_le_l; [exact Hx|].
      rewrite (pow2_Z lb Lb). rewrite <- Zle_Qle. exact B1.
    + rewrite (pow2_Z (la + 1)) by lia. rewrite <- Zlt_Qlt.
      replace (la + 1)%Z with (Z.succ la) by lia. exact A2.
Qed.

Lemma mag_spec (x : Q) : 0 < x -> 2 ^ (mag x - 1) <= x /\ x < 2 ^ (mag x).
Proof.
  intros Hx. destruct (mag_rough x Hx) as [L U].
  unfold mag. destruct (Qle_bool _ x) eqn:T.
  - apply Qle_bool_iff in T. split; [|exact U].
    match goal with |- 2 ^ ?e <= _ => replace e with (Z.log2 (Qnum x) - Z.log2 (Zpos (Qden x)))%Z by lia end.
    exact T.
  - split; [apply Qlt_le_weak; exact L|].
    apply Qnot_le_lt. intros C. apply Qle_bool_iff in C. congruence.
Qed.

Lemma mag_unique (x : Q) (m : Z) : 2 ^ (m - 1) <= x -> x < 2 ^ m -> mag x = m.
Proof.
  intros L U.
  assert (Hx : 0 < x) by (eapply Qlt_le_trans; [apply pow2_pos | exact L]).
  destruct (mag_spec x Hx) as [L' U'].
  assert ((m - 1 < mag x)%Z) by (apply pow2_lt_inv; eapply Qle_lt_trans; eauto).
  assert ((mag x - 1 < m)%Z) by (apply pow2_lt_inv; eapply Qle_lt_trans; eauto).
  lia.
Qed.

Lemma mag_ext (x y : Q) : 0 < x -> x == y -> mag x = mag y.
Proof.
  intros Hx E. destruct (mag_spec x Hx) as [L U].
  symmetry. apply mag_unique; rewrite <- E; assumption.
Qed.

Lemma mag_mono (x y : Q) : 0 < x -> x <= y -> (mag x <= mag y)%Z.
Proof.
  intros Hx L.
  assert (Hy : 0 < y) by (eapply Qlt_le_trans; eauto).
  destruct (mag_spec x Hx) as [Lx Ux]. destruct (mag_spec y Hy) as [Ly Uy].
  assert ((mag x - 1 < mag y)%Z).
  { apply pow2_lt_inv. eapply Qle_lt_trans; [exact Lx|]. eapply Qle_lt_trans; eauto. }
  lia.
Qed.
(** ** Rounding to nearest is monotone *)

Lemma rnd_pos_eq (x : Q) :
  rnd_pos x == inject_Z (round_half_even (x / 2 ^ fexp x)) * 2 ^ fexp x.
Proof. unfold rnd_pos. apply Qred_correct. Qed.

Lemma pow2_neq0 (z : Z) : ~ 2 ^ z == 0.
Proof. pose proof (pow2_pos z). lra. Qed.

Lemma rnd_pos_le_grid (x : Q) (K : Z) :
  x <= inject_Z K * 2 ^ fexp x -> rnd_pos x <= inject_Z K * 2 ^ fexp x.
Proof.
  intros H. rewrite rnd_pos_eq.
  apply Qmult_le_compat_r; [|apply Qlt_le_weak, pow2_pos].
  rewrite <- Zle_Qle. rewrite <- (round_half_even_Z K) at 1.
  apply round_half_even_mono. apply Qle_shift_div_r; [apply pow2_pos | exact H].
Qed.

Lemma rnd_pos_ge_grid (x : Q) (K : Z) :
  inject_Z K * 2 ^ fexp x <= x -> inject_Z K * 2 ^ fexp x <= rnd_pos x.
Proof.
  intros H. rewrite rnd_pos_eq.
  apply Qmult_le_compat_r; [|apply Qlt_le_weak, pow2_pos].
  rewrite <- Zle_Qle. rewrite <- (round_half_even_Z K) at 1.
  apply round_half_even_mono. apply Qle_shift_div_l; [apply pow2_pos | exact H].
Qed.

Lemma pow2_split (M e : Z) : (e <= M)%Z -> 2 ^ M == inject_Z (2 ^ (M - e)) * 2 ^ e.
Proof.
  intros H. rewrite <- pow2_Z by lia. rewrite <- pow2_add.
  replace (M - e + e)%Z with M by lia. reflexivity.
Qed.

Lemma rnd_pos_le_pow (x : Q) (M : Z) :
  (fexp x <= M)%Z -> x <= 2 ^ M -> rnd_pos x <= 2 ^ M.
Proof.
  intros He H. rewrite (pow2_split M (fexp x) He) in *. apply rnd_pos_le_grid, H.
Qed.

Lemma rnd_pos_ge_pow (x : Q) (M : Z) :
  (fexp x <= M)%Z -> 2 ^ M <= x -> 2 ^ M <= rnd_pos x.
Proof.
  intros He H. rewrite (pow2_split M (fexp x) He) in *. apply rnd_pos_ge_grid, H.
Qed.

Lemma rnd_pos_mono (x y : Q) : 0 < x -> x <= y -> rnd_pos x <= rnd_pos y.
Proof.
  intros Hx L.
  assert (Hy : 0 < y) by (eapply Qlt_le_trans; eauto).
  pose proof (mag_mono x y Hx L) as Hm.
  destruct (Z.eq_dec (fexp x) (fexp y)) as [E | N].
  - rewrite !rnd_pos_eq, E.
    apply Qmult_le_compat_r; [|apply Qlt_le_weak, pow2_pos].
    rewrite <- Zle_Qle. apply round_half_even_mono.
    apply Qmult_le_compat_r; [exact L|].
    apply Qlt_le_weak, Qinv_lt_0_compat, pow2_pos.
  - destruct (mag_spec x Hx) as [_ Ux]. destruct (mag_spec y Hy) as [Ly _].
    unfold fexp in N |- *. 
    apply Qle_trans with (2 ^ (mag y - 1)).
    + apply rnd_pos_le_pow; [unfold fexp, prec, emin in *; lia|].
      apply Qle_trans with (2 ^ mag x); [apply Qlt_le_weak, Ux|].
      apply pow2_le. unfold prec, emin in *. lia.
    + apply rnd_pos_ge_pow; [unfold fexp, prec, emin in *; lia | exact Ly].
Qed.

Lemma rnd_pos_nonneg (x : Q) : 0 <= x -> 0 <= rnd_pos x.
Proof.
  intros H. rewrite rnd_pos_eq.
  apply Qmult_le_0_compat; [|apply Qlt_le_weak, pow2_pos].
  change 0 with (inject_Z 0). rewrite <- Zle_Qle.
  rewrite <- (round_half_even_Z 0) at 1. apply round_half_even_mono.
  apply Qle_shift_div_l; [apply pow2_pos | rewrite Qmult_0_l; exact H].
Qed.

Lemma Qnum_pos (x : Q) : 0 < x <-> exists p, Qnum x = Zpos p.
Proof.
  destruct x as [a b]. unfold Qlt. simpl. split.
  - intros H. destruct a; try lia. eauto.
  - intros [p ->]. lia.
Qed.

Lemma RN_pos (x : Q) : 0 < x -> RN x = rnd_pos x.
Proof. intros H. apply Qnum_pos in H as [p E]. unfold RN. rewrite E. reflexivity. Qed.

Lemma RN_nonneg (x : Q) : 0 <= x -> 0 <= RN x.
Proof.
  intros H. unfold RN. destruct (Qnum x) eqn:E.
  - lra.
  - apply rnd_pos_nonneg, H.
  - exfalso. destruct x as [a b]. unfold Qle in H. simpl in *. lia.
Qed.

Lemma RN_mono (x y : Q) : 0 <= x -> x <= y -> RN x <= RN y.
Proof.
  intros Hx L. destruct (Qlt_le_dec 0 x) as [P | Z].
  - rewrite (RN_pos x P), (RN_pos y) by lra. apply rnd_pos_mono; assumption.
  - assert (E : Qnum x = 0%Z).
    { destruct x as [a b]. unfold Qle in *. simpl in *. lia. }
    unfold RN at 1. rewrite E. apply RN_nonneg. lra.
Qed.

Lemma rnd_pos_ext (x y : Q) : 0 < x -> x == y -> rnd_pos x = rnd_pos y.
Proof.
  intros Hx E. unfold rnd_pos, fexp. rewrite (mag_ext x y Hx E).
  apply Qred_complete.
  rewrite (round_half_even_ext (x / 2 ^ Z.max (mag y - prec) emin)
                               (y / 2 ^ Z.max (mag y - prec) emin)) by (rewrite E; reflexivity).
  reflexivity.
Qed.

Lemma RN_ext (x y : Q) : x == y -> RN x = RN y.
Proof.
  intros E. unfold RN.
  destruct x as [a b], y as [c d]. unfold Qeq in E. simpl in *.
  destruct a, c; try lia; try reflexivity.
  - apply rnd_pos_ext; [reflexivity | exact E].
  - rewrite (rnd_pos_ext (- (Z.neg p # b)) (- (Z.neg p0 # d)));
      [reflexivity | reflexivity | unfold Qeq, Qopp; simpl; lia].
Qed.

(** ** Bounds carried through rounding *)

Lemma RN_le_const (x c : Q) : 0 <= x -> x <= c -> RN c = c -> RN x <= c.
Proof.
  intros H0 H E. apply Qle_trans with (RN c).
  - apply RN_mono; assumption.
  - rewrite E. apply Qle_refl.
Qed.

Lemma RN_ge_const (x c : Q) : 0 <= c -> c <= x -> RN c = c -> c <= RN x.
Proof.
  intros H0 H E. apply Qle_trans with (RN c).
  - rewrite E. apply Qle_refl.
  - apply RN_mono; assumption.
Qed.

Lemma RN_range (a b x : Q) :
  0 <= a -> RN a = a -> RN b = b -> a <= x <= b -> a <= RN x <= b.
Proof.
  intros Ha Ea Eb [L U]. split.
  - apply RN_ge_const; assumption.
  - apply RN_le_const; [lra | assumption | assumption].
Qed.

Lemma RN_0 : RN 0 = 0.
Proof. reflexivity. Qed.

Lemma RN_1 : RN 1 = 1.
Proof. vm_compute. reflexivity. Qed.

Lemma RN_10 : RN 10 = 10.
Proof. vm_compute. reflexivity. Qed.

Lemma RN_20 : RN 20 = 20.
Proof. vm_compute. reflexivity. Qed.

Lemma RN_95 : RN 95 = 95.
Proof. vm_compute. reflexivity. Qed.

Lemma RN_100 : RN 100 = 100.
Proof. vm_compute. reflexivity. Qed.

Lemma RN_200 : RN 200 = 200.
Proof. vm_compute. reflexivity. Qed.

Lemma tenths_range (a b : Z) (x : Q) :
  inject_Z a <= x <= inject_Z b ->
  (a * 10 <= round_half_even (x * 10) <= b * 10)%Z.
Proof.
  intros [L U]. split.
  - rewrite <- (round_half_even_Z (a * 10)). apply round_half_even_mono.
    rewrite inject_Z_mult. apply Qmult_le_compat_r; [exact L | discriminate].
  - rewrite <- (round_half_even_Z (b * 10)). apply round_half_even_mono.
    rewrite inject_Z_mult. apply Qmult_le_compat_r; [exact U | discriminate].
Qed.

(** [round(x, 1)] stays between two integers that enclose [x]. *)
Lemma round1_range (a b : Z) (x : Q) :
  (0 <= a)%Z -> RN (inject_Z a) = inject_Z a -> RN (inject_Z b) = inject_Z b ->
  inject_Z a <= x <= inject_Z b ->
  inject_Z a <= round1 x <= inject_Z b.
Proof.
  intros Ha Ea Eb H. unfold round1.
  destruct (tenths_range a b x H) as [K1 K2].
  apply RN_range; try assumption.
  - change 0 with (inject_Z 0). rewrite <- Zle_Qle. exact Ha.
  - rewrite Zle_Qle in K1, K2. rewrite inject_Z_mult in K1, K2.
    change (inject_Z 10) with 10 in *.
    set (k := inject_Z (round_half_even (x * 10))) in *.
    split.
    + apply Qle_shift_div_l; [reflexivity | exact K1].
    + apply Qle_shift_div_r; [reflexivity | exact K2].
Qed.

(** ** One decimal *)

Lemma Q_same_eq (a b : Q) : Q_same a b = true -> a = b.
Proof.
  destruct a as [n d], b as [n' d']. unfold Q_same. simpl. intros H.
  apply andb_true_iff in H as [Hn Hd].
  apply Z.eqb_eq in Hn. apply Pos.eqb_eq in Hd. congruence.
Qed.

Lemma tenths_fixed : forallb tenth_fixed (map Z.of_nat (List.seq 0 1001)) = true.
Proof. vm_compute. reflexivity. Qed.

(** Up to 100, rounding to one decimal twice is rounding once. *)
Lemma round1_idempotent (x : Q) : 0 <= x <= 100 -> round1 (round1 x) = round1 x.
Proof.
  intros H. unfold round1 at 2 3.
  destruct (tenths_range 0 100 x H) as [K1 K2].
  set (k := round_half_even (x * 10)) in *.
  apply Q_same_eq. change (tenth_fixed k = true).
  pose proof tenths_fixed as A. rewrite forallb_forall in A. apply A.
  apply in_map_iff. exists (Z.to_nat k). split; [lia|].
  apply in_seq. lia.
Qed.

(** ** Agreement with the reference model on concrete operands *)

Example RN_third :
  Reference.to_Q (Reference.div (Reference.of_int 1) (Reference.of_int 3)) = Some (RN (1 # 3)).
Proof. vm_compute. reflexivity. Qed.

Example RN_four_tenths_percent :
  Reference.to_Q
    (Reference.mul (Reference.div (Reference.of_int 4) (Reference.of_int 10))
                   (Reference.of_int 100))
  = Some (fmul (fdiv 4 10) 100).
Proof. vm_compute. reflexivity. Qed.

Example RN_literal_1_2 :
  Reference.to_Q (Reference.div (Reference.of_int 12) (Reference.of_int 10)) = Some (RN (12 # 10)).
Proof. vm_compute. reflexivity. Qed.

Example RN_seventh_complement :
  Reference.to_Q
    (Reference.sub (Reference.of_int 100)
       (Reference.mul (Reference.div (Reference.of_int 3) (Reference.of_int 7))
                      (Reference.of_int 100)))
  = Some (fsub 100 (fmul (fdiv 3 7) 100)).
Proof. vm_compute. reflexivity. Qed.

Example RN_sum_halved :
  Reference.to_Q
    (Reference.div
       (Reference.add (Reference.div (Reference.of_int 100) (Reference.of_int 3))
                      (Reference.div (Reference.of_int 400) (Reference.of_int 7)))
       (Reference.of_int 2))
  = Some (fdiv (fadd (fdiv 100 3) (fdiv 400 7)) 2).
Proof. vm_compute. reflexivity. Qed.

(** For every history of up to 40 exchanges, whatever the count, the
    scores are the floats the reference model computes. *)
Example scores_agree_upto_40 : Reference.scores_agree_upto 40 = true.
Proof. vm_compute. reflexivity. Qed.

Example RN_subnormal :
  Reference.to_Q
    (Reference.div (Reference.of_int 3) (Reference.of_int (2 ^ 1023)))
  = Some (fdiv 3 (inject_Z (2 ^ 1023)))
  /\ Reference.to_Q
       (Reference.div (Reference.div (Reference.of_int 3) (Reference.of_int (2 ^ 1023)))
                      (Reference.of_int (2 ^ 50)))
     = Some (fdiv (fdiv 3 (inject_Z (2 ^ 1023))) (inject_Z (2 ^ 50))).
Proof. vm_compute. split; reflexivity. Qed.

End Float64Facts.

(** * Facts on text *)

Module PyFacts.

Local Open Scope string_scope.

Lemma prefix_append (w q : string) : prefix w (w ++ q) = true.
Proof.
  induction w as [|c w IH]; simpl.
  - destruct q; reflexivity.
  - destruct (ascii_dec c c) as [_ | N]; [exact IH | contradiction].
Qed.

Lemma prefix_split (w s : string) : prefix w s = true -> exists q, s = w ++ q.
Proof.
  revert s. induction w as [|c w IH]; intros s H.
  - exists s. reflexivity.
  - destruct s as [|c' s]; simpl in H; [discriminate|].
    destruct (ascii_dec c c') as [-> | N]; [|discriminate].
    destruct (IH s H) as [q ->]. exists q. reflexivity.
Qed.

(** [word in text] holds exactly when [word] occurs in [text]. *)
Lemma contains_prefix (w s : string) : prefix w s = true -> contains w s = true.
Proof. destruct s; simpl; intros ->; reflexivity. Qed.

Lemma contains_occurs (w p q : string) : contains w (p ++ w ++ q) = true.
Proof.
  induction p as [|c p IH]; simpl.
  - apply contains_prefix, prefix_append.
  - rewrite IH. apply orb_true_r.
Qed.

Lemma contains_split (w s : string) :
  contains w s = true -> exists p q, s = p ++ w ++ q.
Proof.
  induction s as [|c s IH]; intros H.
  - destruct w; [exists "", ""; reflexivity | discriminate].
  - cbn [contains] in H. apply orb_true_iff in H as [H | H].
    + destruct (prefix_split _ _ H) as [q E]. exists "", q. exact E.
    + destruct (IH H) as (p & q & ->). exists (String c p), q. reflexivity.
Qed.

Lemma append_assoc (a b c : string) : (a ++ b) ++ c = a ++ b ++ c.
Proof. induction a as [|x a IH]; simpl; [reflexivity | rewrite IH; reflexivity]. Qed.

Lemma lower_append (a b : string) : lower (a ++ b) = lower a ++ lower b.
Proof. induction a as [|x a IH]; simpl; [reflexivity | rewrite IH; reflexivity]. Qed.

End PyFacts.

(** * Facts on the analysis *)

Module AnalysisFacts.

Import Float64Facts PyFacts.
Local Open Scope string_scope.

(** ** Counting *)

Lemma str_lower_text (exchange : dict) :
  text_message exchange = true ->
  str_lower (get exchange "user_message" (VStr "")) = Return (scanned exchange).
Proof.
  unfold text_message, get, scanned.
  destruct (lookup exchange "user_message") as [[]|]; intros H;
    try discriminate; reflexivity.
Qed.

Lemma any_word_in_text (words : list string) (exchange : dict) :
  text_message exchange = true ->
  any_word_in words exchange = Return (mentions words exchange).
Proof.
  intros T. unfold mentions. induction words as [|word rest IH]; simpl.
  - reflexivity.
  - rewrite (str_lower_text exchange T). simpl.
    destruct (contains word (scanned exchange)); [reflexivity | exact IH].
Qed.

Lemma count_mentions_cons (words : list string) (x : dict) (history : list dict) :
  count_mentions words (x :: history)
  = if mentions words x then (1 + count_mentions words history)%Z
    else count_mentions words history.
Proof.
  unfold count_mentions. cbn [filter]. destruct (mentions words x); [|reflexivity].
  cbn [List.length]. rewrite Nat2Z.inj_succ. lia.
Qed.

Lemma count_mentions_app (words : list string) (h1 h2 : list dict) :
  count_mentions words (h1 ++ h2)
  = (count_mentions words h1 + count_mentions words h2)%Z.
Proof.
  unfold count_mentions. rewrite filter_app, length_app. lia.
Qed.

Lemma count_mentions_range (words : list string) (history : list dict) :
  (0 <= count_mentions words history <= Z.of_nat (List.length history))%Z.
Proof.
  unfold count_mentions. pose proof (filter_length_le (mentions words) history). lia.
Qed.

Lemma sum_1_if_text (words : list string) (history : list dict) :
  text_history history ->
  sum_1_if (any_word_in words) history = Return (count_mentions words history).
Proof.
  unfold text_history. induction history as [|x rest IH]; simpl; intros T.
  - reflexivity.
  - apply andb_true_iff in T as [Tx Tr].
    rewrite (any_word_in_text words x Tx), (IH Tr). simpl.
    rewrite count_mentions_cons. reflexivity.
Qed.

(** Without text there is no report: the first message that is present
    and not text raises. *)
Lemma any_word_in_not_text (words : list string) (exchange : dict) :
  words <> [] -> text_message exchange = false ->
  any_word_in words exchange = Raise AttributeError.
Proof.
  intros N T. destruct words as [|word rest]; [contradiction|].
  cbn [any_word_in]. unfold text_message, get in *.
  destruct (lookup exchange "user_message") as [[]|]; try discriminate; reflexivity.
Qed.

Lemma sum_1_if_not_text (words : list string) (history : list dict) :
  words <> [] -> forallb text_message history = false ->
  sum_1_if (any_word_in words) history = Raise AttributeError.
Proof.
  intros N. induction history as [|x rest IH]; cbn [forallb sum_1_if]; intros T.
  - discriminate.
  - destruct (text_message x) eqn:Tx.
    + rewrite (any_word_in_text words x Tx), (IH T). reflexivity.
    + rewrite (any_word_in_not_text words x N Tx). reflexivity.
Qed.

Lemma text_history_app (h1 h2 : list dict) :
  text_history (h1 ++ h2) <-> text_history h1 /\ text_history h2.
Proof. unfold text_history. rewrite forallb_app. apply andb_true_iff. Qed.

Lemma text_history_cons (x : dict) (h : list dict) :
  text_history (x :: h) <-> text_message x = true /\ text_history h.
Proof. unfold text_history. simpl. apply andb_true_iff. Qed.

(** ** The report of a history of text *)

(** The divisor [max(total, 1)] is never zero. *)
Lemma int_truediv_share (count total : Z) :
  int_truediv count (Z.max total 1) = Return (share count total).
Proof.
  unfold int_truediv, share.
  destruct (Z.eqb_spec (Z.max total 1) 0) as [E | _]; [lia | reflexivity].
Qed.

Lemma as_number_of_number (n : number) : as_number (of_number n) = Some n.
Proof. destruct n; reflexivity. Qed.

Lemma is_num_of_number (n : number) : is_num (Some (of_number n)) = true.
Proof. destruct n; reflexivity. Qed.

Ltac read_field :=
  cbn [summary metric field lookup setitem String.eqb Ascii.eqb Bool.eqb];
  rewrite ?as_number_of_number; reflexivity.

Lemma analysis_reads (self : AIService) (history : list dict) (nd : option dict) :
  text_history history ->
  exists r,
    _generate_mock_analysis self history nd = Return r
    /\ reads r (Z.of_nat (List.length history))
             (count_mentions empathy_words history)
             (count_mentions defensive_words history) nd.
Proof.
  intros T. unfold _generate_mock_analysis.
  rewrite (sum_1_if_text empathy_words history T).
  rewrite (sum_1_if_text defensive_words history T).
  cbn [bind]. rewrite int_truediv_share.
  cbn [bind]. rewrite int_truediv_share.
  cbn [bind].
  eexists. split; [reflexivity|].
  set (t := Z.of_nat (List.length history)).
  set (e := count_mentions empathy_words history).
  set (d := count_mentions defensive_words history).
  fold (empathy_score_of e t). fold (stress_reduction_of d t).
  fold (emotional_regulation_of e d t). fold (communication_effectiveness_of e t).
  set (es := empathy_score_of e t).
  set (sr := stress_reduction_of d t).
  set (er := emotional_regulation_of e d t).
  set (ce := communication_effectiveness_of e t).
  assert (C : forall s1 s2 : string,
             is_pattern (Some (VStr (if (e >? d)%Z then "improving" else "needs_work")))
             = true)
    by (intros; destruct (e >? d)%Z; reflexivity).
  destruct nd as [[|kv telemetry]|]; constructor; try read_field;
    unfold structurally_complete;
    cbn [summary metric field lookup setitem String.eqb Ascii.eqb Bool.eqb
         forallb metric_names];
    rewrite ?is_num_of_number, (C "" ""); reflexivity.
Qed.

(** The analysis returns exactly on the histories of text. *)
Lemma analysis_returns_iff_text
    (self : AIService) (history : list dict) (nd : option dict) :
  (exists r, _generate_mock_analysis self history nd = Return r) <-> text_history history.
Proof.
  split.
  - intros [r E]. unfold text_history.
    destruct (forallb text_message history) eqn:T; [reflexivity|].
    unfold _generate_mock_analysis in E.
    rewrite (sum_1_if_not_text empathy_words history) in E by (discriminate || exact T).
    discriminate E.
  - intros T. destruct (analysis_reads self history nd T) as [r [E _]]. eauto.
Qed.

(** ** Ranges of the scores *)

Local Open Scope Q_scope.

Lemma share_range (a t : Z) :
  (0 <= a <= t)%Z -> 0 <= share a t <= 1.
Proof.
  intros [A0 At]. unfold share, fdiv.
  assert (M : 0 < inject_Z (Z.max t 1)).
  { change 0 with (inject_Z 0). rewrite <- Zlt_Qlt. lia. }
  apply RN_range; [apply Qle_refl | apply RN_0 | apply RN_1 |]. split.
  - apply Qle_shift_div_l; [exact M|]. rewrite Qmult_0_l.
    change 0 with (inject_Z 0). rewrite <- Zle_Qle. exact A0.
  - apply Qle_shift_div_r; [exact M|]. rewrite Qmult_1_l.
    rewrite <- Zle_Qle. lia.
Qed.

Lemma percent_range (a t : Z) :
  (0 <= a <= t)%Z -> 0 <= fmul (share a t) 100 <= 100.
Proof.
  intros H. pose proof (share_range a t H) as [L U]. unfold fmul.
  apply RN_range; [apply Qle_refl | apply RN_0 | apply RN_100 | lra].
Qed.

Lemma empathy_score_range (e t : Z) :
  (0 <= e <= t)%Z -> 0 <= empathy_score_of e t <= 100.
Proof. apply percent_range. Qed.

Lemma py_max_20_range (y : Q) :
  y <= 100 -> 20 <= num_val (py_max (Int 20) (Float y)) <= 100.
Proof.
  intros U. unfold py_max. cbn [num_val].
  destruct (Qcompare (inject_Z 20) y) eqn:C; cbn [num_val];
    try (split; discriminate).
  rewrite <- Qlt_alt in C. change (inject_Z 20) with 20 in C. lra.
Qed.

Lemma stress_reduction_range (d t : Z) :
  (0 <= d <= t)%Z -> 20 <= num_val (stress_reduction_of d t) <= 100.
Proof.
  intros H. pose proof (percent_range d t H) as [L U].
  unfold stress_reduction_of. apply py_max_20_range. unfold fsub.
  apply RN_le_const; [lra | lra | apply RN_100].
Qed.

Lemma to_float_stress_reduction (d t : Z) :
  to_float (stress_reduction_of d t) = num_val (stress_reduction_of d t).
Proof.
  unfold stress_reduction_of, py_max.
  destruct (Qcompare _ _); cbn [to_float num_val]; try reflexivity; apply RN_20.
Qed.

Lemma emotional_regulation_range (e d t : Z) :
  (0 <= e <= t)%Z -> (0 <= d <= t)%Z -> 10 <= emotional_regulation_of e d t <= 100.
Proof.
  intros He Hd. unfold emotional_regulation_of.
  pose proof (empathy_score_range e t He) as [L U].
  pose proof (stress_reduction_range d t Hd) as [L' U'].
  rewrite to_float_stress_reduction.
  set (es := empathy_score_of e t) in *. set (s := num_val (stress_reduction_of d t)) in *.
  assert (S : 20 <= fadd es s <= 200).
  { unfold fadd. apply RN_range; [discriminate | apply RN_20 | apply RN_200 | lra]. }
  unfold fdiv. apply RN_range; [discriminate | apply RN_10 | apply RN_100 |].
  destruct S as [S1 S2]. split.
  - apply Qle_shift_div_l; [reflexivity | lra].
  - apply Qle_shift_div_r; [reflexivity | lra].
Qed.

Lemma lit_1_2_nonneg : 0 <= lit_1_2.
Proof. apply RN_nonneg. discriminate. Qed.

Lemma communication_effectiveness_range (e t : Z) :
  (0 <= e <= t)%Z -> 0 <= num_val (communication_effectiveness_of e t) <= 95.
Proof.
  intros He. pose proof (empathy_score_range e t He) as [L U].
  unfold communication_effectiveness_of, py_min. cbn [num_val].
  set (x := fmul (empathy_score_of e t) lit_1_2).
  assert (X : 0 <= x).
  { unfold x, fmul. apply RN_nonneg. apply Qmult_le_0_compat; [exact L | apply lit_1_2_nonneg]. }
  destruct (Qcompare x (inject_Z 95)) eqn:C; cbn [num_val];
    try (split; discriminate).
  rewrite <- Qlt_alt in C. change (inject_Z 95) with 95 in C. lra.
Qed.

(** ** Rounding a score to one decimal *)

Lemma py_round1_range (a b : Z) (n : number) :
  (0 <= a)%Z -> RN (inject_Z a) = inject_Z a -> RN (inject_Z b) = inject_Z b ->
  inject_Z a <= num_val n <= inject_Z b ->
  inject_Z a <= num_val (py_round1 n) <= inject_Z b.
Proof.
  intros Ha Ea Eb H. destruct n as [z | x]; cbn [py_round1 num_val] in *.
  - exact H.
  - apply round1_range; assumption.
Qed.

Lemma py_round1_one_decimal (n : number) :
  0 <= num_val n <= 100 -> one_decimal (py_round1 n).
Proof.
  intros H. unfold one_decimal. destruct n as [z | x]; cbn [py_round1 num_val] in *.
  - reflexivity.
  - f_equal. apply round1_idempotent. exact H.
Qed.

End AnalysisFacts.

(** * Facts on start-up and shutdown *)

Module LifecycleFacts.

Local Open Scope string_scope.

Lemma live_usage_test (settings : Settings) :
  FEATURE_REAL_AI settings && negb (String.eqb (OPENAI_API_KEY settings) "demo-key") = true
  <-> live_usage settings.
Proof.
  unfold live_usage. rewrite andb_true_iff, negb_true_iff.
  destruct (String.eqb_spec (OPENAI_API_KEY settings) "demo-key") as [E | N];
    intuition congruence.
Qed.

(** The four ways [initialize] can go, by what the backend does. *)
Lemma initialize_disabled (settings : Settings) (b : Backend) (w : world) :
  ~ live_usage settings ->
  initialize settings b w
  = (Return tt,
     {| this := this w;
        trace := trace w ++ [LogInfo "Using mock AI responses (demo mode)"] |}).
Proof.
  intros N. unfold initialize, try_except_Exception.
  destruct (FEATURE_REAL_AI settings && _) eqn:E.
  - apply live_usage_test in E. contradiction.
  - reflexivity.
Qed.

Lemma initialize_enabled (settings : Settings) (b : Backend) (w : world)
    (key := OPENAI_API_KEY settings) (c := {| api_key := key |}) :
  live_usage settings ->
  initialize settings b w
  = match construct b key with
    | Some e =>
        if is_Exception e
        then (Return tt,
              {| this := {| client := None |};
                 trace := (trace w ++ [Constructed key])
                          ++ [LogWarning "OpenAI API not available, using mock responses" e] |})
        else (Raise e, {| this := this w; trace := trace w ++ [Constructed key] |})
    | None =>
        match chat_completions_create b c with
        | Some e =>
            if is_Exception e
            then (Return tt,
                  {| this := {| client := None |};
                     trace := ((trace w ++ [Constructed key]) ++ [Probed c])
                              ++ [LogWarning "OpenAI API not available, using mock responses" e] |})
            else (Raise e,
                  {| this := {| client := Some c |};
                     trace := (trace w ++ [Constructed key]) ++ [Probed c] |})
        | None =>
            (Return tt,
             {| this := {| client := Some c |};
                trace := ((trace w ++ [Constructed key]) ++ [Probed c])
                         ++ [LogInfo "OpenAI API connection verified"] |})
        end
    end.
Proof.
  intros L. apply live_usage_test in L.
  unfold initialize, try_except_Exception. rewrite L.
  unfold AsyncOpenAI, call, seq, emit, set_client, logger_info, logger_warning, ret.
  cbn [this trace]. fold key.
  destruct (construct b key) as [e |].
  - destruct (is_Exception e); reflexivity.
  - fold c. destruct (chat_completions_create b c) as [e |].
    + destruct (is_Exception e); reflexivity.
    + reflexivity.
Qed.

Lemma live_usage_dec (settings : Settings) : {live_usage settings} + {~ live_usage settings}.
Proof.
  destruct (FEATURE_REAL_AI settings && negb (String.eqb (OPENAI_API_KEY settings) "demo-key"))
    eqn:E.
  - left. apply live_usage_test, E.
  - right. intros L. apply live_usage_test in L. congruence.
Qed.

Lemma cleanup_without_handle (b : Backend) (w : world) :
  client (this w) = None -> cleanup b w = (Return tt, w).
Proof.
  intros E. unfold cleanup, seq, get_client. rewrite E. reflexivity.
Qed.

Lemma cleanup_with_handle (b : Backend) (w : world) (c : Client) :
  client (this w) = Some c ->
  cleanup b w
  = (match close b c with None => Return tt | Some e => Raise e end,
     {| this := this w; trace := trace w ++ [Closed c] |}).
Proof.
  intros E. unfold cleanup, get_client, call, emit, seq. rewrite E. cbn [this trace].
  destruct (close b c); reflexivity.
Qed.

Lemma releases_app (t1 t2 : list event) : releases (t1 ++ t2) = (releases t1 + releases t2)%nat.
Proof. unfold releases. rewrite filter_app, length_app. reflexivity. Qed.

Lemma cleanups_with_handle (n : nat) (b : Backend) (w : world) (c : Client) :
  client (this w) = Some c -> close b c = None ->
  cleanups n b w
  = (Return tt, {| this := this w; trace := trace w ++ repeat (Closed c) n |}).
Proof.
  revert w. induction n as [|n IH]; intros w E Ok.
  - cbn. rewrite app_nil_r. destruct w; reflexivity.
  - cbn [cleanups]. unfold seq. rewrite (cleanup_with_handle b w c E), Ok.
    rewrite IH by assumption. cbn [this trace repeat].
    rewrite <- app_assoc. reflexivity.
Qed.

Lemma cleanups_without_handle (n : nat) (b : Backend) (w : world) :
  client (this w) = None -> cleanups n b w = (Return tt, w).
Proof.
  intros E. induction n as [|n IH].
  - reflexivity.
  - cbn [cleanups]. unfold seq. rewrite (cleanup_without_handle b w E). exact IH.
Qed.

Lemma releases_repeat (c : Client) (n : nat) : releases (repeat (Closed c) n) = n.
Proof. induction n as [|n IH]; [reflexivity|]. cbn. unfold releases in IH. rewrite IH. reflexivity. Qed.

End LifecycleFacts.

(** * The report on concrete histories *)

Module Scenarios.

Local Open Scope string_scope.

Example empty_history_report :
  exists r,
    _generate_mock_analysis new_AIService [] None = Return r
    /\ summary "total_exchanges" r = Some (VInt 0)
    /\ metric "empathy_score" r = Some (Float 0)
    /\ metric "stress_reduction" r = Some (Float 100)
    /\ summary "communication_pattern" r = Some (VStr "needs_work").
Proof. eexists. split; [vm_compute; reflexivity|]. repeat split. Qed.

Example ten_exchanges_report :
  exists r,
    _generate_mock_analysis new_AIService ten_exchanges None = Return r
    /\ metric "empathy_score" r = Some (Float 40)
    /\ metric "stress_reduction" r = Some (Float 80)
    /\ metric "emotional_regulation" r = Some (Float 60)
    /\ metric "communication_effectiveness" r = Some (Float 48)
    /\ summary "communication_pattern" r = Some (VStr "improving")
    /\ field ["neural_improvements"; "new_pathways_formed"] r = Some (VInt 38)
    /\ field ["neural_improvements"; "stress_response_reduction"] r = Some (VStr "80%").
Proof. eexists. split; [vm_compute; reflexivity|]. repeat split. Qed.

(** The empty telemetry dict counts as no telemetry. *)
Example empty_telemetry_report :
  exists r,
    _generate_mock_analysis new_AIService ten_exchanges (Some []) = Return r
    /\ field ["neural_correlation"] r = None.
Proof. eexists. split; [vm_compute; reflexivity|]. reflexivity. Qed.

(** A message that is present but not text has no [lower]: the analysis
    raises.  [text_history] excludes such histories. *)
Example message_not_text_raises :
  _generate_mock_analysis new_AIService [[("user_message", VNone)]] None
  = Raise AttributeError.
Proof. reflexivity. Qed.

(** All defensive: the floor of 20 applies and the int 20 is reported. *)
Example all_defensive_report :
  exists r,
    _generate_mock_analysis new_AIService [says "not now"; says "but why"] None = Return r
    /\ metric "stress_reduction" r = Some (Int 20)
    /\ metric "emotional_regulation" r = Some (Float 10).
Proof. eexists. split; [vm_compute; reflexivity|]. repeat split. Qed.

(** A probe that times out leaves a fresh engine in heuristic mode. *)
Example probe_timeout_selects_heuristic :
  run (initialize live_settings) timing_out_backend new_AIService
  = (Return tt,
     {| this := {| client := None |};
        trace := [Constructed "sk-live"; Probed {| api_key := "sk-live" |};
                  LogWarning "OpenAI API not available, using mock responses"
                             APITimeoutError] |}).
Proof. reflexivity. Qed.

(** What is not an [Exception] passes through [except Exception]. *)
Example cancellation_passes_through :
  fst (run (initialize live_settings) cancelling_backend new_AIService)
  = Raise CancelledError.
Proof. reflexivity. Qed.

End Scenarios.

(** * The specification, claim by claim *)

Import Float64Facts PyFacts AnalysisFacts LifecycleFacts.
Local Open Scope string_scope.

(** ** C1: telemetry *)

(** C1, as stated, fails: for the empty history and the empty telemetry dict
    [{}] the report has no [neural_correlation] at all, because the test
    [if neural_data:] is false for an empty dict. *)
Lemma empty_telemetry_attaches_nothing :
  ~ empty_telemetry_gets_defaults new_AIService [].
Proof.
  intros [r [E F]]. vm_compute in E. injection E as <-. vm_compute in F. discriminate F.
Qed.

(** C1, amended: on a history of text, whenever a telemetry dict that is not
    empty is supplied, the report carries [neural_correlation] with the
    supplied [avg_stress], [peak_empathy] and [regulation], 35, 82 and 78
    standing in for a missing one; with no telemetry or an empty dict the
    report has no [neural_correlation]. *)
Theorem telemetry_attached_when_not_empty
    (self : AIService) (history : list dict) (nd : option dict) :
  text_history history ->
  exists r,
    _generate_mock_analysis self history nd = Return r
    /\ (forall telemetry,
          nd = Some telemetry -> telemetry <> [] ->
          field ["neural_correlation"] r = Some (correlation_of telemetry))
    /\ (nd = None \/ nd = Some [] -> field ["neural_correlation"] r = None).
Proof.
  intros T. destruct (analysis_reads self history nd T) as [r [E R]].
  exists r. split; [exact E|]. pose proof (reads_correlation _ _ _ _ _ R) as C. split.
  - intros telemetry -> N. destruct telemetry; [contradiction | exact C].
  - intros [-> | ->]; exact C.
Qed.

Lemma telemetry_attached_when_not_empty_witness :
  text_history sample_history
  /\ exists r,
       _generate_mock_analysis new_AIService sample_history (Some sample_telemetry) = Return r
       /\ (forall telemetry,
             Some sample_telemetry = Some telemetry -> telemetry <> [] ->
             field ["neural_correlation"] r = Some (correlation_of telemetry))
       /\ (Some sample_telemetry = None \/ Some sample_telemetry = Some [] ->
           field ["neural_correlation"] r = None).
Proof.
  split; [reflexivity|].
  apply (telemetry_attached_when_not_empty new_AIService sample_history (Some sample_telemetry)).
  reflexivity.
Defined.

(** ** C2: shutdown *)

(** C2, as stated, fails: on an engine in live mode whose backend closes
    without error, the second [cleanup] closes the handle again. *)
Lemma second_cleanup_releases_again :
  ~ second_cleanup_is_noop healthy_backend live_engine.
Proof. unfold second_cleanup_is_noop. vm_compute. discriminate. Qed.

(** C2, amended: [cleanup] closes the client handle whenever one is retained
    and leaves it retained.  With no handle, any number of [cleanup] calls
    does nothing; with a handle whose [close] returns, [n] calls in a row
    close it [n] times and the engine still holds it. *)
Theorem cleanup_releases_on_every_call (n : nat) (b : Backend) (s : AIService) :
  (client s = None ->
   run (cleanups n) b s = (Return tt, {| this := s; trace := [] |}))
  /\ (forall c,
        client s = Some c -> close b c = None ->
        exists t,
          run (cleanups n) b s = (Return tt, {| this := s; trace := t |})
          /\ t = repeat (Closed c) n
          /\ releases t = n).
Proof.
  split.
  - intros E. unfold run. apply cleanups_without_handle. exact E.
  - intros c E Ok. exists (repeat (Closed c) n). split; [|split].
    + unfold run. rewrite (cleanups_with_handle n b {| this := s; trace := [] |} c E Ok).
      reflexivity.
    + reflexivity.
    + apply releases_repeat.
Qed.

Lemma cleanup_releases_on_every_call_witness :
  client live_engine = Some {| api_key := "sk-live" |}
  /\ close healthy_backend {| api_key := "sk-live" |} = None
  /\ exists t,
       run (cleanups 2) healthy_backend live_engine
       = (Return tt, {| this := live_engine; trace := t |})
       /\ t = repeat (Closed {| api_key := "sk-live" |}) 2
       /\ releases t = 2%nat.
Proof.
  split; [reflexivity|]. split; [reflexivity|].
  apply (proj2 (cleanup_releases_on_every_call 2 healthy_backend live_engine));
    reflexivity.
Defined.

(** ** C3: the communication pattern *)

(** C3: on a history of text the report's [communication_pattern] is
    "improving" exactly when [empathetic_responses] is greater than
    [defensive_responses]; otherwise, so also on a tie, it is "needs_work". *)
Theorem pattern_improving_iff_more_empathetic
    (self : AIService) (history : list dict) (nd : option dict) :
  text_history history ->
  exists r e d,
    _generate_mock_analysis self history nd = Return r
    /\ summary "empathetic_responses" r = Some (VInt e)
    /\ summary "defensive_responses" r = Some (VInt d)
    /\ (summary "communication_pattern" r = Some (VStr "improving") <-> (e > d)%Z)
    /\ ((e <= d)%Z -> summary "communication_pattern" r = Some (VStr "needs_work")).
Proof.
  intros T. destruct (analysis_reads self history nd T) as [r [E R]].
  exists r, (count_mentions empathy_words history), (count_mentions defensive_words history).
  destruct R as [_ Re Rd Rp _ _ _ _ _ _ _].
  repeat split; try assumption; rewrite Rp, Z.gtb_ltb;
    destruct (Z.ltb_spec (count_mentions defensive_words history)
                         (count_mentions empathy_words history));
    intros; try reflexivity; try lia; discriminate.
Qed.

Lemma pattern_improving_iff_more_empathetic_witness :
  text_history sample_history
  /\ exists r e d,
       _generate_mock_analysis new_AIService sample_history None = Return r
       /\ summary "empathetic_responses" r = Some (VInt e)
       /\ summary "defensive_responses" r = Some (VInt d)
       /\ (summary "communication_pattern" r = Some (VStr "improving") <-> (e > d)%Z)
       /\ ((e <= d)%Z -> summary "communication_pattern" r = Some (VStr "needs_work")).
Proof.
  split; [reflexivity|].
  apply (pattern_improving_iff_more_empathetic new_AIService sample_history None).
  reflexivity.
Defined.

(** ** C4: stress reduction *)

(** C4: on a history of text, empty or not, [stress_reduction] is
    [max(20, 100 - defensive_responses / max(total, 1) * 100)] rounded to one
    decimal, it lies between 20 and 100, and it is 100.0 on the empty
    history. *)
Theorem stress_reduction_between_20_and_100
    (self : AIService) (history : list dict) (nd : option dict) :
  text_history history ->
  exists r d n,
    _generate_mock_analysis self history nd = Return r
    /\ summary "defensive_responses" r = Some (VInt d)
    /\ metric "stress_reduction" r = Some n
    /\ n = py_round1
             (py_max (Int 20)
                (Float (fsub 100 (fmul (share d (Z.of_nat (List.length history))) 100))))
    /\ (20 <= num_val n <= 100)%Q
    /\ (history = [] -> n = Float 100).
Proof.
  intros T. destruct (analysis_reads self history nd T) as [r [E R]].
  exists r, (count_mentions defensive_words history).
  eexists. split; [exact E|]. split; [exact (reads_defensive _ _ _ _ _ R)|].
  split; [exact (reads_stress_reduction _ _ _ _ _ R)|]. split; [reflexivity|]. split.
  - apply (py_round1_range 20 100); [lia | apply RN_20 | apply RN_100 |].
    apply stress_reduction_range, count_mentions_range.
  - intros ->. vm_compute. reflexivity.
Qed.

Lemma stress_reduction_between_20_and_100_witness :
  text_history sample_history
  /\ exists r d n,
       _generate_mock_analysis new_AIService sample_history None = Return r
       /\ summary "defensive_responses" r = Some (VInt d)
       /\ metric "stress_reduction" r = Some n
       /\ n = py_round1
                (py_max (Int 20)
                   (Float (fsub 100
                      (fmul (share d (Z.of_nat (List.length sample_history))) 100))))
       /\ (20 <= num_val n <= 100)%Q
       /\ (sample_history = [] -> n = Float 100).
Proof.
  split; [reflexivity|].
  apply (stress_reduction_between_20_and_100 new_AIService sample_history None).
  reflexivity.
Defined.

(** ** C5: communication effectiveness *)

(** C5: on a history of text, [communication_effectiveness] is
    [min(95, empathy_score * 1.2)] rounded to one decimal, where
    [empathy_score] is [empathetic_responses / max(total, 1) * 100], and it
    is never above 95. *)
Theorem communication_effectiveness_at_most_95
    (self : AIService) (history : list dict) (nd : option dict) :
  text_history history ->
  exists r e n,
    _generate_mock_analysis self history nd = Return r
    /\ summary "empathetic_responses" r = Some (VInt e)
    /\ metric "communication_effectiveness" r = Some n
    /\ n = py_round1
             (py_min (Int 95)
                (Float (fmul (fmul (share e (Z.of_nat (List.length history))) 100)
                             lit_1_2)))
    /\ (num_val n <= 95)%Q.
Proof.
  intros T. destruct (analysis_reads self history nd T) as [r [E R]].
  exists r, (count_mentions empathy_words history).
  eexists. split; [exact E|]. split; [exact (reads_empathetic _ _ _ _ _ R)|].
  split; [exact (reads_communication_effectiveness _ _ _ _ _ R)|].
  split; [reflexivity|].
  apply (py_round1_range 0 95); [lia | apply RN_0 | apply RN_95 |].
  apply communication_effectiveness_range, count_mentions_range.
Qed.

Lemma communication_effectiveness_at_most_95_witness :
  text_history sample_history
  /\ exists r e n,
       _generate_mock_analysis new_AIService sample_history None = Return r
       /\ summary "empathetic_responses" r = Some (VInt e)
       /\ metric "communication_effectiveness" r = Some n
       /\ n = py_round1
                (py_min (Int 95)
                   (Float (fmul
                      (fmul (share e (Z.of_nat (List.length sample_history))) 100)
                      lit_1_2)))
       /\ (num_val n <= 95)%Q.
Proof.
  split; [reflexivity|].
  apply (communication_effectiveness_at_most_95 new_AIService sample_history None).
  reflexivity.
Defined.

(** ** C6: the report is complete *)

(** C6: on a history of text, empty or not, whatever the state of the engine
    (client handle retained or not), the analysis returns a report with every
    required key: the four entries of [conversation_summary], the four
    metrics, [insights], [recommendations] and [neural_improvements]; each
    metric is a number between 0 and 100 with one decimal. *)
Theorem report_structurally_complete
    (self : AIService) (history : list dict) (nd : option dict) :
  text_history history ->
  exists r,
    _generate_mock_analysis self history nd = Return r
    /\ structurally_complete r = true
    /\ forall name, In name metric_names ->
         exists n,
           metric name r = Some n
           /\ (0 <= num_val n <= 100)%Q
           /\ one_decimal n.
Proof.
  intros T. destruct (analysis_reads self history nd T) as [r [E R]].
  exists r. split; [exact E|]. split; [exact (reads_complete _ _ _ _ _ R)|].
  pose proof (count_mentions_range empathy_words history) as He.
  pose proof (count_mentions_range defensive_words history) as Hd.
  assert (Es := empathy_score_range _ _ He).
  assert (Sr := stress_reduction_range _ _ Hd).
  assert (Er := emotional_regulation_range _ _ _ He Hd).
  assert (Ce := communication_effectiveness_range _ _ He).
  assert (B : forall m : number,
            (0 <= num_val m <= 100)%Q ->
            (0 <= num_val (py_round1 m) <= 100)%Q /\ one_decimal (py_round1 m)).
  { intros m Hm. split.
    - apply (py_round1_range 0 100); [lia | apply RN_0 | apply RN_100 | exact Hm].
    - apply py_round1_one_decimal. exact Hm. }
  intros name [<- | [<- | [<- | [<- | []]]]]; eexists; (split; [|apply B]).
  - exact (reads_empathy_score _ _ _ _ _ R).
  - exact Es.
  - exact (reads_stress_reduction _ _ _ _ _ R).
  - lra.
  - exact (reads_emotional_regulation _ _ _ _ _ R).
  - cbn [num_val]. lra.
  - exact (reads_communication_effectiveness _ _ _ _ _ R).
  - lra.
Qed.

Lemma report_structurally_complete_witness :
  text_history sample_history
  /\ exists r,
       _generate_mock_analysis live_engine sample_history None = Return r
       /\ structurally_complete r = true
       /\ forall name, In name metric_names ->
            exists n,
              metric name r = Some n
              /\ (0 <= num_val n <= 100)%Q
              /\ one_decimal n.
Proof.
  split; [reflexivity|].
  apply (report_structurally_complete live_engine sample_history None).
  reflexivity.
Defined.

(** ** C7: keywords match as substrings *)

(** C7: a keyword is looked for as a substring of the lower-cased message.
    An exchange whose user message contains "misunderstand" holds
    "understand", so inserting it anywhere into a history of text raises
    [empathetic_responses] by one. *)
Theorem misunderstand_counts_as_empathetic
    (self : AIService) (before after : list dict) (exchange : dict)
    (message : string) (nd : option dict) :
  text_history (before ++ after) ->
  lookup exchange "user_message" = Some (VStr message) ->
  contains "misunderstand" message = true ->
  contains "understand" (lower message) = true
  /\ exists r r' n,
       _generate_mock_analysis self (before ++ after) nd = Return r
       /\ _generate_mock_analysis self (before ++ exchange :: after) nd = Return r'
       /\ summary "empathetic_responses" r = Some (VInt n)
       /\ summary "empathetic_responses" r' = Some (VInt (n + 1)).
Proof.
  intros T M O. destruct (contains_split _ _ O) as (pre & post & ->).
  assert (C : contains "understand" (lower (pre ++ "misunderstand" ++ post)) = true).
  { rewrite !lower_append.
    change (lower "misunderstand") with ("mis" ++ "understand").
    rewrite (append_assoc "mis"), <- (append_assoc (lower pre)).
    apply contains_occurs. }
  split; [exact C|].
  assert (Tx : text_message exchange = true) by (unfold text_message; rewrite M; reflexivity).
  assert (Mx : mentions empathy_words exchange = true).
  { unfold mentions, scanned. rewrite M. cbn [existsb empathy_words]. rewrite C. reflexivity. }
  assert (T' : text_history (before ++ exchange :: after)).
  { apply text_history_app in T as [T1 T2]. apply text_history_app. split; [exact T1|].
    apply text_history_cons. split; assumption. }
  destruct (analysis_reads self _ nd T) as [r [E R]].
  destruct (analysis_reads self _ nd T') as [r' [E' R']].
  exists r, r', (count_mentions empathy_words (before ++ after)).
  split; [exact E|]. split; [exact E'|]. split; [exact (reads_empathetic _ _ _ _ _ R)|].
  rewrite (reads_empathetic _ _ _ _ _ R'). do 2 f_equal.
  rewrite !count_mentions_app, count_mentions_cons, Mx. lia.
Qed.

Lemma misunderstand_counts_as_empathetic_witness :
  text_history (sample_history ++ [])
  /\ lookup [("user_message", VStr "I misunderstand")] "user_message"
     = Some (VStr "I misunderstand")
  /\ contains "misunderstand" "I misunderstand" = true
  /\ contains "understand" (lower "I misunderstand") = true
  /\ exists r r' n,
       _generate_mock_analysis new_AIService (sample_history ++ []) None = Return r
       /\ _generate_mock_analysis new_AIService
            (sample_history ++ [("user_message", VStr "I misunderstand")] :: []) None
          = Return r'
       /\ summary "empathetic_responses" r = Some (VInt n)
       /\ summary "empathetic_responses" r' = Some (VInt (n + 1)).
Proof.
  split; [reflexivity|]. split; [reflexivity|]. split; [reflexivity|].
  apply (misunderstand_counts_as_empathetic new_AIService sample_history []
           [("user_message", VStr "I misunderstand")] "I misunderstand" None);
    reflexivity.
Defined.

(** ** C8: an exchange without a message *)

(** C8: an exchange with no [user_message] is read as the empty text and
    matches no keyword of either list; inserting it anywhere into a history
    of text leaves both counts as they were, and the analysis still returns
    a complete report instead of raising. *)
Theorem missing_message_reads_as_empty
    (self : AIService) (before after : list dict) (exchange : dict) (nd : option dict) :
  text_history (before ++ after) ->
  lookup exchange "user_message" = None ->
  str_lower (get exchange "user_message" (VStr "")) = Return ""
  /\ any_word_in empathy_words exchange = Return false
  /\ any_word_in defensive_words exchange = Return false
  /\ exists r r' e d,
       _generate_mock_analysis self (before ++ after) nd = Return r
       /\ _generate_mock_analysis self (before ++ exchange :: after) nd = Return r'
       /\ structurally_complete r' = true
       /\ summary "empathetic_responses" r = Some (VInt e)
       /\ summary "empathetic_responses" r' = Some (VInt e)
       /\ summary "defensive_responses" r = Some (VInt d)
       /\ summary "defensive_responses" r' = Some (VInt d).
Proof.
  intros T M.
  assert (Tx : text_message exchange = true) by (unfold text_message; rewrite M; reflexivity).
  assert (S : scanned exchange = "") by (unfold scanned; rewrite M; reflexivity).
  assert (N : forall words, forallb (fun w => negb (contains w "")) words = true ->
                            mentions words exchange = false).
  { intros words H. unfold mentions. rewrite S.
    induction words as [|w ws IH]; [reflexivity|]. cbn [existsb forallb] in *.
    apply andb_true_iff in H as [Hw Hws]. apply negb_true_iff in Hw.
    rewrite Hw, (IH Hws). reflexivity. }
  pose proof (N empathy_words eq_refl) as Ne.
  pose proof (N defensive_words eq_refl) as Nd.
  split; [rewrite (str_lower_text exchange Tx), S; reflexivity|].
  split; [rewrite (any_word_in_text _ exchange Tx), Ne; reflexivity|].
  split; [rewrite (any_word_in_text _ exchange Tx), Nd; reflexivity|].
  assert (T' : text_history (before ++ exchange :: after)).
  { apply text_history_app in T as [T1 T2]. apply text_history_app. split; [exact T1|].
    apply text_history_cons. split; assumption. }
  destruct (analysis_reads self _ nd T) as [r [E R]].
  destruct (analysis_reads self _ nd T') as [r' [E' R']].
  exists r, r', (count_mentions empathy_words (before ++ after)),
    (count_mentions defensive_words (before ++ after)).
  split; [exact E|]. split; [exact E'|]. split; [exact (reads_complete _ _ _ _ _ R')|].
  split; [exact (reads_empathetic _ _ _ _ _ R)|].
  split; [|split; [exact (reads_defensive _ _ _ _ _ R)|]].
  - rewrite (reads_empathetic _ _ _ _ _ R'). do 2 f_equal.
    rewrite !count_mentions_app, count_mentions_cons, Ne. reflexivity.
  - rewrite (reads_defensive _ _ _ _ _ R'). do 2 f_equal.
    rewrite !count_mentions_app, count_mentions_cons, Nd. reflexivity.
Qed.

Lemma missing_message_reads_as_empty_witness :
  text_history (sample_history ++ [])
  /\ lookup [("timestamp", VInt 1700000000)] "user_message" = None
  /\ str_lower (get [("timestamp", VInt 1700000000)] "user_message" (VStr "")) = Return ""
  /\ any_word_in empathy_words [("timestamp", VInt 1700000000)] = Return false
  /\ any_word_in defensive_words [("timestamp", VInt 1700000000)] = Return false
  /\ exists r r' e d,
       _generate_mock_analysis new_AIService (sample_history ++ []) None = Return r
       /\ _generate_mock_analysis new_AIService
            (sample_history ++ [("timestamp", VInt 1700000000)] :: []) None
          = Return r'
       /\ structurally_complete r' = true
       /\ summary "empathetic_responses" r = Some (VInt e)
       /\ summary "empathetic_responses" r' = Some (VInt e)
       /\ summary "defensive_responses" r = Some (VInt d)
       /\ summary "defensive_responses" r' = Some (VInt d).
Proof.
  split; [reflexivity|]. split; [reflexivity|].
  apply (missing_message_reads_as_empty new_AIService sample_history []
           [("timestamp", VInt 1700000000)] None);
    reflexivity.
Defined.

(** ** C9: the start-up probe *)

Lemma backend_failures_are_Exceptions (e : exn) :
  In e backend_failures -> is_Exception e = true.
Proof. intros [<- | [<- | [<- | [<- | []]]]]; reflexivity. Qed.

(** C9: whatever the configuration and whatever the backend does, as long as
    what it raises is an [Exception] (authentication, network, quota and
    timeout errors are), [initialize] returns without raising, after one
    probe at most.  If live usage is configured and constructing the client
    or the probe fails, no client handle is retained; if both succeed the
    handle is retained; if live usage is not configured the engine is left
    as it was and nothing is probed. *)
Theorem initialize_never_raises (settings : Settings) (b : Backend) (self : AIService) :
  (forall key e, construct b key = Some e -> is_Exception e = true) ->
  (forall c e, chat_completions_create b c = Some e -> is_Exception e = true) ->
  exists w,
    run (initialize settings) b self = (Return tt, w)
    /\ (probes (trace w) <= 1)%nat
    /\ (constructions (trace w) <= 1)%nat
    /\ (live_usage settings ->
        construct b (OPENAI_API_KEY settings) <> None
        \/ chat_completions_create b {| api_key := OPENAI_API_KEY settings |} <> None ->
        client (this w) = None)
    /\ (live_usage settings ->
        construct b (OPENAI_API_KEY settings) = None ->
        chat_completions_create b {| api_key := OPENAI_API_KEY settings |} = None ->
        client (this w) = Some {| api_key := OPENAI_API_KEY settings |})
    /\ (~ live_usage settings -> this w = self /\ probes (trace w) = 0%nat).
Proof.
  intros Hc Hp. unfold run.
  destruct (live_usage_dec settings) as [L | N].
  - rewrite (initialize_enabled settings b _ L). cbn [trace this app].
    destruct (construct b (OPENAI_API_KEY settings)) as [e |] eqn:C.
    + rewrite (Hc _ _ C). eexists. split; [reflexivity|]. cbn [trace this].
      repeat split; try (cbn; lia); try reflexivity; try discriminate; try contradiction.
    + destruct (chat_completions_create b _) as [e |] eqn:P.
      * rewrite (Hp _ _ P). eexists. split; [reflexivity|]. cbn [trace this].
        repeat split; try (cbn; lia); try reflexivity; try discriminate; try contradiction.
      * eexists. split; [reflexivity|]. cbn [trace this].
        repeat split; try (cbn; lia); try reflexivity; try contradiction.
        intros _ [F | F]; contradiction.
  - rewrite (initialize_disabled settings b _ N). eexists. split; [reflexivity|].
    cbn [trace this app].
    repeat split; try (cbn; lia); try reflexivity; try contradiction.
Qed.

Lemma initialize_never_raises_witness :
  (forall key e, construct timing_out_backend key = Some e -> is_Exception e = true)
  /\ (forall c e, chat_completions_create timing_out_backend c = Some e -> is_Exception e = true)
  /\ exists w,
       run (initialize live_settings) timing_out_backend new_AIService = (Return tt, w)
       /\ (probes (trace w) <= 1)%nat
       /\ (constructions (trace w) <= 1)%nat
       /\ (live_usage live_settings ->
           construct timing_out_backend (OPENAI_API_KEY live_settings) <> None
           \/ chat_completions_create timing_out_backend
                {| api_key := OPENAI_API_KEY live_settings |} <> None ->
           client (this w) = None)
       /\ (live_usage live_settings ->
           construct timing_out_backend (OPENAI_API_KEY live_settings) = None ->
           chat_completions_create timing_out_backend
             {| api_key := OPENAI_API_KEY live_settings |} = None ->
           client (this w) = Some {| api_key := OPENAI_API_KEY live_settings |})
       /\ (~ live_usage live_settings -> this w = new_AIService /\ probes (trace w) = 0%nat).
Proof.
  assert (Hc : forall key e, construct timing_out_backend key = Some e -> is_Exception e = true)
    by (intros key e H; discriminate H).
  assert (Hp : forall c e,
             chat_completions_create timing_out_backend c = Some e -> is_Exception e = true)
    by (intros c e H; injection H as <-; reflexivity).
  split; [exact Hc|]. split; [exact Hp|].
  exact (initialize_never_raises live_settings timing_out_backend new_AIService Hc Hp).
Defined.

(** ** C10: when a client is created *)

(** C10: [initialize] constructs a client, and so can leave a fresh engine
    with a handle, only if [FEATURE_REAL_AI] is true and the API key is not
    "demo-key".  With the key "demo-key", whatever the flag, it returns
    having only logged that mock responses are used: nothing is constructed
    or probed and the engine is left as it was. *)
Theorem client_only_for_live_usage (settings : Settings) (b : Backend) (self : AIService) :
  (constructions (trace (snd (run (initialize settings) b self))) <> 0%nat ->
   live_usage settings)
  /\ (self = new_AIService ->
      client (this (snd (run (initialize settings) b self))) <> None ->
      live_usage settings)
  /\ (OPENAI_API_KEY settings = "demo-key" ->
      run (initialize settings) b self
      = (Return tt,
         {| this := self; trace := [LogInfo "Using mock AI responses (demo mode)"] |})
      /\ probes (trace (snd (run (initialize settings) b self))) = 0%nat
      /\ constructions (trace (snd (run (initialize settings) b self))) = 0%nat).
Proof.
  unfold run. split; [|split].
  - intros H. destruct (live_usage_dec settings) as [L | N]; [exact L|].
    rewrite (initialize_disabled settings b _ N) in H. cbn in H. contradiction.
  - intros -> H. destruct (live_usage_dec settings) as [L | N]; [exact L|].
    rewrite (initialize_disabled settings b _ N) in H. cbn in H. contradiction.
  - intros K.
    assert (N : ~ live_usage settings) by (intros [_ N]; contradiction).
    rewrite (initialize_disabled settings b _ N). cbn [trace this app snd].
    repeat split.
Qed.

Lemma client_only_for_live_usage_witness :
  OPENAI_API_KEY demo_settings = "demo-key"
  /\ run (initialize demo_settings) healthy_backend new_AIService
     = (Return tt,
        {| this := new_AIService;
           trace := [LogInfo "Using mock AI responses (demo mode)"] |})
  /\ probes (trace (snd (run (initialize demo_settings) healthy_backend new_AIService))) = 0%nat
  /\ constructions (trace (snd (run (initialize demo_settings) healthy_backend new_AIService)))
     = 0%nat.
Proof.
  split; [reflexivity|].
  apply (proj2 (proj2 (client_only_for_live_usage demo_settings healthy_backend new_AIService))).
  reflexivity.
Defined.

(** * Further facts on the analysis *)

Module MoreFacts.

Local Open Scope string_scope.



Lemma mentions_iff_occurs (words : list string) (exchange : dict) :
  mentions words exchange = true <-> occurs_in words (scanned exchange).
Proof.
  unfold mentions, occurs_in. rewrite existsb_exists. split.
  - intros (w & I & C). destruct (contains_split _ _ C) as (p & q & E). eauto.
  - intros (w & p & q & I & E). exists w. split; [exact I|].
    rewrite E. apply contains_occurs.
Qed.

Lemma scanned_message (exchange : dict) (message : string) :
  lookup exchange "user_message" = Some (VStr message) ->
  text_message exchange = true /\ scanned exchange = lower message.
Proof. intros M. unfold text_message, scanned. rewrite M. split; reflexivity. Qed.


End MoreFacts.

Import MoreFacts.

(** * Further properties of [_generate_mock_analysis] *)



(** X2: in every report, [total_exchanges] is the length of the history,
    exchanges without a message included; the two counts lie between 0 and
    [total_exchanges]; and [new_pathways_formed] is
    [3 * total_exchanges + 2 * empathetic_responses], so between three and
    five times [total_exchanges]. *)
Theorem counts_within_total
    (self : AIService) (history : list dict) (nd : option dict) :
  text_history history ->
  exists r e d p,
    _generate_mock_analysis self history nd = Return r
    /\ summary "total_exchanges" r = Some (VInt (Z.of_nat (List.length history)))
    /\ summary "empathetic_responses" r = Some (VInt e)
    /\ summary "defensive_responses" r = Some (VInt d)
    /\ field ["neural_improvements"; "new_pathways_formed"] r = Some (VInt p)
    /\ (0 <= e <= Z.of_nat (List.length history))%Z
    /\ (0 <= d <= Z.of_nat (List.length history))%Z
    /\ (p = 3 * Z.of_nat (List.length history) + 2 * e)%Z
    /\ (3 * Z.of_nat (List.length history) <= p <= 5 * Z.of_nat (List.length history))%Z.
Proof.
  intros T. destruct (analysis_reads self history nd T) as [r [E R]].
  pose proof (count_mentions_range empathy_words history) as He.
  pose proof (count_mentions_range defensive_words history) as Hd.
  exists r, (count_mentions empathy_words history), (count_mentions defensive_words history),
    (Z.of_nat (List.length history) * 3 + count_mentions empathy_words history * 2)%Z.
  split; [exact E|]. split; [exact (reads_total _ _ _ _ _ R)|].
  split; [exact (reads_empathetic _ _ _ _ _ R)|].
  split; [exact (reads_defensive _ _ _ _ _ R)|].
  split; [exact (reads_pathways _ _ _ _ _ R)|].
  repeat split; lia.
Qed.

Lemma counts_within_total_witness :
  text_history sample_history
  /\ exists r e d p,
       _generate_mock_analysis new_AIService sample_history None = Return r
       /\ summary "total_exchanges" r = Some (VInt (Z.of_nat (List.length sample_history)))
       /\ summary "empathetic_responses" r = Some (VInt e)
       /\ summary "defensive_responses" r = Some (VInt d)
       /\ field ["neural_improvements"; "new_pathways_formed"] r = Some (VInt p)
       /\ (0 <= e <= Z.of_nat (List.length sample_history))%Z
       /\ (0 <= d <= Z.of_nat (List.length sample_history))%Z
       /\ (p = 3 * Z.of_nat (List.length sample_history) + 2 * e)%Z
       /\ (3 * Z.of_nat (List.length sample_history) <= p
           <= 5 * Z.of_nat (List.length sample_history))%Z.
Proof.
  split; [reflexivity|].
  apply (counts_within_total new_AIService sample_history None). reflexivity.
Defined.

(** X3: an exchange with a text message is counted as empathetic exactly
    when one of "understand", "feel", "sorry", "hear" occurs in the
    lower-cased message, and as defensive exactly when one of "wrong",
    "not", "but", "however" does; the two counts are independent, and each
    rises by one at most however many keywords the message holds. *)
Theorem counted_iff_keyword_occurs
    (self : AIService) (history : list dict) (exchange : dict)
    (message : string) (nd : option dict) :
  text_history history ->
  lookup exchange "user_message" = Some (VStr message) ->
  exists r r' e d e' d',
    _generate_mock_analysis self history nd = Return r
    /\ _generate_mock_analysis self (exchange :: history) nd = Return r'
    /\ summary "empathetic_responses" r = Some (VInt e)
    /\ summary "defensive_responses" r = Some (VInt d)
    /\ summary "empathetic_responses" r' = Some (VInt e')
    /\ summary "defensive_responses" r' = Some (VInt d')
    /\ (occurs_in empathy_words (lower message) -> e' = (e + 1)%Z)
    /\ (~ occurs_in empathy_words (lower message) -> e' = e)
    /\ (occurs_in defensive_words (lower message) -> d' = (d + 1)%Z)
    /\ (~ occurs_in defensive_words (lower message) -> d' = d).
Proof.
  intros T M. destruct (scanned_message exchange message M) as [Tx S].
  assert (T' : text_history (exchange :: history))
    by (apply text_history_cons; split; assumption).
  destruct (analysis_reads self _ nd T) as [r [E R]].
  destruct (analysis_reads self _ nd T') as [r' [E' R']].
  exists r, r', (count_mentions empathy_words history),
    (count_mentions defensive_words history),
    (count_mentions empathy_words (exchange :: history)),
    (count_mentions defensive_words (exchange :: history)).
  split; [exact E|]. split; [exact E'|].
  split; [exact (reads_empathetic _ _ _ _ _ R)|].
  split; [exact (reads_defensive _ _ _ _ _ R)|].
  split; [exact (reads_empathetic _ _ _ _ _ R')|].
  split; [exact (reads_defensive _ _ _ _ _ R')|].
  rewrite !count_mentions_cons, <- S.
  pose proof (mentions_iff_occurs empathy_words exchange) as Ie.
  pose proof (mentions_iff_occurs defensive_words exchange) as Id.
  destruct (mentions empathy_words exchange), (mentions defensive_words exchange);
    repeat split; intros O; try lia;
    try (exfalso; apply O; apply Ie; reflexivity);
    try (exfalso; apply O; apply Id; reflexivity);
    try (apply Ie in O; discriminate O);
    try (apply Id in O; discriminate O).
Qed.

Lemma counted_iff_keyword_occurs_witness :
  text_history sample_history
  /\ lookup [("user_message", VStr "Nothing to feel SORRY about")] "user_message"
     = Some (VStr "Nothing to feel SORRY about")
  /\ exists r r' e d e' d',
       _generate_mock_analysis new_AIService sample_history None = Return r
       /\ _generate_mock_analysis new_AIService
            ([("user_message", VStr "Nothing to feel SORRY about")] :: sample_history) None
          = Return r'
       /\ summary "empathetic_responses" r = Some (VInt e)
       /\ summary "defensive_responses" r = Some (VInt d)
       /\ summary "empathetic_responses" r' = Some (VInt e')
       /\ summary "defensive_responses" r' = Some (VInt d')
       /\ (occurs_in empathy_words (lower "Nothing to feel SORRY about") -> e' = (e + 1)%Z)
       /\ (~ occurs_in empathy_words (lower "Nothing to feel SORRY about") -> e' = e)
       /\ (occurs_in defensive_words (lower "Nothing to feel SORRY about") -> d' = (d + 1)%Z)
       /\ (~ occurs_in defensive_words (lower "Nothing to feel SORRY about") -> d' = d).
Proof.
  split; [reflexivity|]. split; [reflexivity|].
  apply (counted_iff_keyword_occurs new_AIService sample_history
           [("user_message", VStr "Nothing to feel SORRY about")]
           "Nothing to feel SORRY about" None);
    reflexivity.
Defined.

Module OrderFacts.

Local Open Scope string_scope.





End OrderFacts.

Import OrderFacts.





(** X6: telemetry changes nothing but the presence of [neural_correlation]:
    the report for a telemetry dict that is not empty is the report without
    telemetry with that one key added at the end, and the report for the
    empty dict is the report without telemetry. *)
Theorem telemetry_adds_one_key
    (self : AIService) (history : list dict) (telemetry : dict) :
  text_history history -> telemetry <> [] ->
  exists items,
    _generate_mock_analysis self history None = Return (VDict items)
    /\ _generate_mock_analysis self history (Some [])  = Return (VDict items)
    /\ _generate_mock_analysis self history (Some telemetry)
       = Return (VDict (items ++ [("neural_correlation", correlation_of telemetry)])).
Proof.
  intros T N. unfold _generate_mock_analysis.
  rewrite (sum_1_if_text empathy_words history T).
  rewrite (sum_1_if_text defensive_words history T).
  cbn [bind]. rewrite int_truediv_share.
  cbn [bind]. rewrite int_truediv_share.
  cbn [bind].
  eexists. split; [reflexivity|]. split; [reflexivity|].
  destruct telemetry as [|kv rest]; [contradiction|].
  cbn [setitem String.eqb Ascii.eqb Bool.eqb app]. reflexivity.
Qed.

Lemma telemetry_adds_one_key_witness :
  text_history sample_history /\ sample_telemetry <> []
  /\ exists items,
       _generate_mock_analysis new_AIService sample_history None = Return (VDict items)
       /\ _generate_mock_analysis new_AIService sample_history (Some [])
          = Return (VDict items)
       /\ _generate_mock_analysis new_AIService sample_history (Some sample_telemetry)
          = Return (VDict (items ++ [("neural_correlation", correlation_of sample_telemetry)])).
Proof.
  assert (N : sample_telemetry <> []) by discriminate.
  split; [reflexivity|]. split; [exact N|].
  apply (telemetry_adds_one_key new_AIService sample_history sample_telemetry);
    [reflexivity | exact N].
Defined.

Module ScoreFacts.

Local Open Scope Q_scope.

Lemma share_none (total : Z) : share 0 total = 0.
Proof.
  unfold share, fdiv. rewrite (RN_ext (inject_Z 0 / inject_Z (Z.max total 1)) 0).
  - apply RN_0.
  - unfold Qdiv. apply Qmult_0_l.
Qed.

Lemma share_all (total : Z) : (1 <= total)%Z -> share total total = 1.
Proof.
  intros H. unfold share, fdiv. rewrite Z.max_l by exact H.
  rewrite (RN_ext (inject_Z total / inject_Z total) 1).
  - apply RN_1.
  - apply Qmult_inv_r. intros E. apply (inject_Z_injective total 0) in E. lia.
Qed.

(** The share is a rate: scaling both counts leaves it as it is. *)
Lemma share_scale (n count total : Z) :
  (1 <= n)%Z -> (0 <= count <= total)%Z ->
  share (n * count) (n * total) = share count total.
Proof.
  intros Hn [Hc Ht]. unfold share, fdiv.
  destruct (Z.eq_dec total 0) as [-> | N].
  - assert (count = 0%Z) as -> by lia. rewrite !Z.mul_0_r. reflexivity.
  - rewrite !Z.max_l by nia. apply RN_ext.
    rewrite !inject_Z_mult.
    assert (Nn : ~ inject_Z n == 0)
      by (intros E; apply (inject_Z_injective n 0) in E; lia).
    assert (Nt : ~ inject_Z total == 0)
      by (intros E; apply (inject_Z_injective total 0) in E; lia).
    field. split; assumption.
Qed.

Lemma share_mono (count count' total : Z) :
  (0 <= count <= count')%Z -> share count total <= share count' total.
Proof.
  intros [H0 H]. unfold share, fdiv.
  assert (M : 0 < inject_Z (Z.max total 1)).
  { change 0 with (inject_Z 0). rewrite <- Zlt_Qlt. lia. }
  apply RN_mono.
  - apply Qle_shift_div_l; [exact M|]. rewrite Qmult_0_l.
    change 0 with (inject_Z 0). rewrite <- Zle_Qle. exact H0.
  - apply Qmult_le_compat_r; [rewrite <- Zle_Qle; exact H|].
    apply Qlt_le_weak, Qinv_lt_0_compat, M.
Qed.

Lemma round1_mono (x y : Q) : 0 <= x -> x <= y -> round1 x <= round1 y.
Proof.
  intros H0 H. unfold round1.
  assert (K0 : (0 <= round_half_even (x * 10))%Z).
  { rewrite <- (round_half_even_Z 0) at 1. apply round_half_even_mono.
    change (inject_Z 0) with 0. lra. }
  assert (K : (round_half_even (x * 10) <= round_half_even (y * 10))%Z)
    by (apply round_half_even_mono; lra).
  rewrite Zle_Qle in K0, K. change (inject_Z 0) with 0 in K0.
  apply RN_mono.
  - apply Qle_shift_div_l; [reflexivity | lra].
  - apply Qmult_le_compat_r; [exact K | discriminate].
Qed.

Lemma empathy_score_mono (e e' total : Z) :
  (0 <= e <= e')%Z -> (e' <= total)%Z ->
  round1 (empathy_score_of e total) <= round1 (empathy_score_of e' total).
Proof.
  intros H Ht.
  pose proof (share_range e total ltac:(lia)) as [L _].
  pose proof (share_mono e e' total H) as S.
  assert (P : 0 <= empathy_score_of e total) by (apply empathy_score_range; lia).
  apply round1_mono; [exact P|].
  unfold empathy_score_of, fmul. apply RN_mono; lra.
Qed.

Lemma stress_reduction_anti (d d' total : Z) :
  (0 <= d <= d')%Z -> (d' <= total)%Z ->
  num_val (py_round1 (stress_reduction_of d' total))
  <= num_val (py_round1 (stress_reduction_of d total)).
Proof.
  intros H Ht.
  pose proof (percent_range d total ltac:(lia)) as [L U].
  pose proof (percent_range d' total ltac:(lia)) as [L' U'].
  pose proof (share_mono d d' total H) as S.
  pose proof (share_range d total ltac:(lia)) as [S0 _].
  assert (P : fmul (share d total) 100 <= fmul (share d' total) 100)
    by (unfold fmul; apply RN_mono; lra).
  assert (Y : fsub 100 (fmul (share d' total) 100) <= fsub 100 (fmul (share d total) 100))
    by (unfold fsub; apply RN_mono; lra).
  assert (Y0 : 0 <= fsub 100 (fmul (share d' total) 100))
    by (unfold fsub; apply RN_nonneg; lra).
  pose proof (stress_reduction_range d total ltac:(lia)) as R.
  pose proof (py_round1_range 20 100 _ ltac:(lia) RN_20 RN_100 R) as [G _].
  unfold stress_reduction_of in *. unfold py_max at 1. cbn [num_val].
  destruct (Qcompare (inject_Z 20) (fsub 100 (fmul (share d' total) 100))) eqn:C';
    cbn [py_round1 num_val]; try exact G.
  rewrite <- Qlt_alt in C'. change (inject_Z 20) with 20 in C'.
  unfold py_max. cbn [num_val].
  destruct (Qcompare (inject_Z 20) (fsub 100 (fmul (share d total) 100))) eqn:C;
    cbn [py_round1 num_val].
  - apply Qeq_alt in C. change (inject_Z 20) with 20 in C. lra.
  - apply round1_mono; assumption.
  - rewrite <- Qgt_alt in C. change (inject_Z 20) with 20 in C. lra.
Qed.

Lemma py_round_range (a b : Z) (n : number) :
  inject_Z a <= num_val n <= inject_Z b -> (a <= py_round n <= b)%Z.
Proof.
  intros [L U]. destruct n as [z | x]; cbn [py_round num_val round0] in *.
  - rewrite <- !Zle_Qle in *. lia.
  - split.
    + rewrite <- (round_half_even_Z a). apply round_half_even_mono, L.
    + rewrite <- (round_half_even_Z b). apply round_half_even_mono, U.
Qed.

End ScoreFacts.

Import ScoreFacts.
Local Open Scope string_scope.



(** X8: [emotional_regulation] is never below 10: it lies between 10 and
    100, and it is 10.0 when no exchange is empathetic and all are
    defensive. *)
Theorem emotional_regulation_at_least_10
    (self : AIService) (history : list dict) (nd : option dict) :
  text_history history ->
  exists r t e d n,
    _generate_mock_analysis self history nd = Return r
    /\ summary "total_exchanges" r = Some (VInt t)
    /\ summary "empathetic_responses" r = Some (VInt e)
    /\ summary "defensive_responses" r = Some (VInt d)
    /\ metric "emotional_regulation" r = Some n
    /\ (10 <= num_val n <= 100)%Q
    /\ (e = 0%Z -> d = t -> (1 <= t)%Z -> n = Float 10).
Proof.
  intros T. destruct (analysis_reads self history nd T) as [r [E R]].
  exists r, (Z.of_nat (List.length history)), (count_mentions empathy_words history),
    (count_mentions defensive_words history).
  eexists.
  split; [exact E|]. split; [exact (reads_total _ _ _ _ _ R)|].
  split; [exact (reads_empathetic _ _ _ _ _ R)|].
  split; [exact (reads_defensive _ _ _ _ _ R)|].
  split; [exact (reads_emotional_regulation _ _ _ _ _ R)|]. split.
  - apply (py_round1_range 10 100 (Float _)); [lia | apply RN_10 | apply RN_100 |].
    cbn [num_val]. apply emotional_regulation_range; apply count_mentions_range.
  - intros Ze Zd P. rewrite Ze, Zd.
    unfold emotional_regulation_of, empathy_score_of, stress_reduction_of.
    rewrite share_none, (share_all _ P). vm_compute. reflexivity.
Qed.

Lemma emotional_regulation_at_least_10_witness :
  text_history sample_history
  /\ exists r t e d n,
       _generate_mock_analysis new_AIService sample_history None = Return r
       /\ summary "total_exchanges" r = Some (VInt t)
       /\ summary "empathetic_responses" r = Some (VInt e)
       /\ summary "defensive_responses" r = Some (VInt d)
       /\ metric "emotional_regulation" r = Some n
       /\ (10 <= num_val n <= 100)%Q
       /\ (e = 0%Z -> d = t -> (1 <= t)%Z -> n = Float 10).
Proof.
  split; [reflexivity|].
  apply (emotional_regulation_at_least_10 new_AIService sample_history None). reflexivity.
Defined.

(** X9: between two histories of text of the same length, the one with no
    fewer empathetic responses has no lower [empathy_score], and the one
    with no fewer defensive responses has no higher [stress_reduction]:
    rounding never reverses the order of the scores. *)
Theorem scores_follow_the_counts
    (self : AIService) (history history' : list dict) (nd nd' : option dict) :
  text_history history -> text_history history' ->
  List.length history = List.length history' ->
  exists r r' e e' d d' s s' q q',
    _generate_mock_analysis self history nd = Return r
    /\ _generate_mock_analysis self history' nd' = Return r'
    /\ summary "empathetic_responses" r = Some (VInt e)
    /\ summary "empathetic_responses" r' = Some (VInt e')
    /\ summary "defensive_responses" r = Some (VInt d)
    /\ summary "defensive_responses" r' = Some (VInt d')
    /\ metric "empathy_score" r = Some s
    /\ metric "empathy_score" r' = Some s'
    /\ metric "stress_reduction" r = Some q
    /\ metric "stress_reduction" r' = Some q'
    /\ ((e <= e')%Z -> (num_val s <= num_val s')%Q)
    /\ ((d <= d')%Z -> (num_val q' <= num_val q)%Q).
Proof.
  intros T T' L.
  destruct (analysis_reads self history nd T) as [r [E R]].
  destruct (analysis_reads self history' nd' T') as [r' [E' R']].
  pose proof (count_mentions_range empathy_words history) as He.
  pose proof (count_mentions_range defensive_words history) as Hd.
  pose proof (count_mentions_range empathy_words history') as He'.
  pose proof (count_mentions_range defensive_words history') as Hd'.
  rewrite <- L in *.
  exists r, r', (count_mentions empathy_words history), (count_mentions empathy_words history'),
    (count_mentions defensive_words history), (count_mentions defensive_words history').
  do 4 eexists.
  split; [exact E|]. split; [exact E'|].
  split; [exact (reads_empathetic _ _ _ _ _ R)|].
  split; [exact (reads_empathetic _ _ _ _ _ R')|].
  split; [exact (reads_defensive _ _ _ _ _ R)|].
  split; [exact (reads_defensive _ _ _ _ _ R')|].
  split; [exact (reads_empathy_score _ _ _ _ _ R)|].
  split; [exact (reads_empathy_score _ _ _ _ _ R')|].
  split; [exact (reads_stress_reduction _ _ _ _ _ R)|].
  split; [exact (reads_stress_reduction _ _ _ _ _ R')|].
  split.
  - intros C. cbn [py_round1 num_val]. apply empathy_score_mono; lia.
  - intros C. apply stress_reduction_anti; lia.
Qed.

Lemma scores_follow_the_counts_witness :
  text_history sample_history /\ text_history (says "ok" :: quiet_history)
  /\ List.length sample_history = List.length (says "ok" :: quiet_history)
  /\ exists r r' e e' d d' s s' q q',
       _generate_mock_analysis new_AIService sample_history None = Return r
       /\ _generate_mock_analysis new_AIService (says "ok" :: quiet_history) None = Return r'
       /\ summary "empathetic_responses" r = Some (VInt e)
       /\ summary "empathetic_responses" r' = Some (VInt e')
       /\ summary "defensive_responses" r = Some (VInt d)
       /\ summary "defensive_responses" r' = Some (VInt d')
       /\ metric "empathy_score" r = Some s
       /\ metric "empathy_score" r' = Some s'
       /\ metric "stress_reduction" r = Some q
       /\ metric "stress_reduction" r' = Some q'
       /\ ((e <= e')%Z -> (num_val s <= num_val s')%Q)
       /\ ((d <= d')%Z -> (num_val q' <= num_val q)%Q).
Proof.
  split; [reflexivity|]. split; [reflexivity|]. split; [reflexivity|].
  apply (scores_follow_the_counts new_AIService sample_history (says "ok" :: quiet_history)
           None None); reflexivity.
Defined.

Module RepeatFacts.

Lemma count_mentions_repeated (words : list string) (history : list dict) (n : nat) :
  count_mentions words (List.concat (repeat history n))
  = (Z.of_nat n * count_mentions words history)%Z.
Proof.
  induction n as [|n IH]; cbn [repeat List.concat].
  - reflexivity.
  - rewrite count_mentions_app, IH. lia.
Qed.

Lemma length_repeated (history : list dict) (n : nat) :
  Z.of_nat (List.length (List.concat (repeat history n)))
  = (Z.of_nat n * Z.of_nat (List.length history))%Z.
Proof.
  induction n as [|n IH]; cbn [repeat List.concat].
  - reflexivity.
  - rewrite length_app, Nat2Z.inj_add, IH. lia.
Qed.

Lemma text_history_repeated (history : list dict) (n : nat) :
  text_history history -> text_history (List.concat (repeat history n)).
Proof.
  intros T. induction n as [|n IH]; cbn [repeat List.concat].
  - reflexivity.
  - apply text_history_app. split; assumption.
Qed.

End RepeatFacts.

Import RepeatFacts.

(** X10: the metrics are rates.  Repeating a history of text any number of
    times (at least once) multiplies the three counts and leaves the four
    metrics and the communication pattern as they are. *)
Theorem repetition_keeps_the_metrics
    (self : AIService) (history : list dict) (n : nat) (nd : option dict) :
  text_history history -> (1 <= n)%nat ->
  exists r r' t,
    _generate_mock_analysis self history nd = Return r
    /\ _generate_mock_analysis self (List.concat (repeat history n)) nd = Return r'
    /\ summary "total_exchanges" r = Some (VInt t)
    /\ summary "total_exchanges" r' = Some (VInt (Z.of_nat n * t))
    /\ (forall name, In name metric_names -> metric name r' = metric name r)
    /\ summary "communication_pattern" r' = summary "communication_pattern" r.
Proof.
  intros T N.
  pose proof (text_history_repeated history n T) as T'.
  destruct (analysis_reads self _ nd T) as [r [E R]].
  destruct (analysis_reads self _ nd T') as [r' [E' R']].
  rewrite length_repeated, !count_mentions_repeated in R'.
  pose proof (count_mentions_range empathy_words history) as He.
  pose proof (count_mentions_range defensive_words history) as Hd.
  set (t := Z.of_nat (List.length history)) in *.
  set (e := count_mentions empathy_words history) in *.
  set (d := count_mentions defensive_words history) in *.
  assert (Hn : (1 <= Z.of_nat n)%Z) by lia.
  assert (Se : share (Z.of_nat n * e) (Z.of_nat n * t) = share e t)
    by (apply share_scale; assumption).
  assert (Sd : share (Z.of_nat n * d) (Z.of_nat n * t) = share d t)
    by (apply share_scale; assumption).
  exists r, r', t.
  split; [exact E|]. split; [exact E'|].
  split; [exact (reads_total _ _ _ _ _ R)|].
  split; [exact (reads_total _ _ _ _ _ R')|].
  destruct R as [_ _ _ Rp Res Rsr Rer Rce _ _ _].
  destruct R' as [_ _ _ Rp' Res' Rsr' Rer' Rce' _ _ _].
  split.
  - intros name [<- | [<- | [<- | [<- | []]]]].
    + rewrite Res, Res'. unfold empathy_score_of. rewrite Se. reflexivity.
    + rewrite Rsr, Rsr'. unfold stress_reduction_of. rewrite Sd. reflexivity.
    + rewrite Rer, Rer'.
      unfold emotional_regulation_of, empathy_score_of, stress_reduction_of.
      rewrite Se, Sd. reflexivity.
    + rewrite Rce, Rce'. unfold communication_effectiveness_of, empathy_score_of.
      rewrite Se. reflexivity.
  - rewrite Rp, Rp'. do 3 f_equal. rewrite !Z.gtb_ltb.
    destruct (Z.ltb_spec d e), (Z.ltb_spec (Z.of_nat n * d) (Z.of_nat n * e));
      try reflexivity; nia.
Qed.

Lemma repetition_keeps_the_metrics_witness :
  text_history sample_history /\ (1 <= 3)%nat
  /\ exists r r' t,
       _generate_mock_analysis new_AIService sample_history None = Return r
       /\ _generate_mock_analysis new_AIService (List.concat (repeat sample_history 3)) None
          = Return r'
       /\ summary "total_exchanges" r = Some (VInt t)
       /\ summary "total_exchanges" r' = Some (VInt (Z.of_nat 3 * t))
       /\ (forall name, In name metric_names -> metric name r' = metric name r)
       /\ summary "communication_pattern" r' = summary "communication_pattern" r.
Proof.
  split; [reflexivity|]. split; [lia|].
  apply (repetition_keeps_the_metrics new_AIService sample_history 3 None);
    [reflexivity | lia].
Defined.

(** X11: the two percentages of [neural_improvements] are whole numbers
    followed by a percent sign: [stress_response_reduction] between 20 and
    100, [empathy_network_strengthening] between 0 and 100. *)
Theorem improvements_are_whole_percentages
    (self : AIService) (history : list dict) (nd : option dict) :
  text_history history ->
  exists r,
    _generate_mock_analysis self history nd = Return r
    /\ is_percent_between 20 100
         (field ["neural_improvements"; "stress_response_reduction"] r)
    /\ is_percent_between 0 100
         (field ["neural_improvements"; "empathy_network_strengthening"] r).
Proof.
  intros T. unfold _generate_mock_analysis.
  rewrite (sum_1_if_text empathy_words history T).
  rewrite (sum_1_if_text defensive_words history T).
  cbn [bind]. rewrite int_truediv_share.
  cbn [bind]. rewrite int_truediv_share.
  cbn [bind].
  set (t := Z.of_nat (List.length history)).
  set (e := count_mentions empathy_words history).
  set (d := count_mentions defensive_words history).
  fold (empathy_score_of e t). fold (stress_reduction_of d t).
  assert (Ps : (20 <= py_round (stress_reduction_of d t) <= 100)%Z).
  { apply py_round_range. apply stress_reduction_range, count_mentions_range. }
  assert (Pe : (0 <= py_round (Float (empathy_score_of e t)) <= 100)%Z).
  { apply py_round_range. cbn [num_val]. apply empathy_score_range, count_mentions_range. }
  eexists. split; [reflexivity|]. unfold is_percent_between.
  destruct nd as [[|kv telemetry]|];
    cbn [field lookup setitem String.eqb Ascii.eqb Bool.eqb];
    (split; eexists; (split; [reflexivity | assumption])).
Qed.

Lemma improvements_are_whole_percentages_witness :
  text_history sample_history
  /\ exists r,
       _generate_mock_analysis new_AIService sample_history None = Return r
       /\ is_percent_between 20 100
            (field ["neural_improvements"; "stress_response_reduction"] r)
       /\ is_percent_between 0 100
            (field ["neural_improvements"; "empathy_network_strengthening"] r).
Proof.
  split; [reflexivity|].
  apply (improvements_are_whole_percentages new_AIService sample_history None). reflexivity.
Defined.

(** * Further properties of [initialize], [cleanup] and [__init__] *)

Module TraceFacts.

Lemma logs_app (t1 t2 : list event) : logs (t1 ++ t2) = (logs t1 + logs t2)%nat.
Proof. unfold logs. rewrite filter_app, length_app. reflexivity. Qed.

Lemma probes_app (t1 t2 : list event) : probes (t1 ++ t2) = (probes t1 + probes t2)%nat.
Proof. unfold probes. rewrite filter_app, length_app. reflexivity. Qed.

Lemma constructions_app (t1 t2 : list event) :
  constructions (t1 ++ t2) = (constructions t1 + constructions t2)%nat.
Proof. unfold constructions. rewrite filter_app, length_app. reflexivity. Qed.

Lemma cleanup_cases (b : Backend) (w : world) :
  cleanup b w
  = match client (this w) with
    | None => (Return tt, w)
    | Some c =>
        (match close b c with None => Return tt | Some e => Raise e end,
         {| this := this w; trace := trace w ++ [Closed c] |})
    end.
Proof.
  destruct (client (this w)) as [c |] eqn:E.
  - apply cleanup_with_handle, E.
  - apply cleanup_without_handle, E.
Qed.

End TraceFacts.

Import TraceFacts.

(** X12: what [initialize] calls, in every run: it never closes a client;
    it constructs at most one client and probes at most once, only after a
    construction that returned; and the client constructed and probed
    carries the configured API key. *)
Theorem initialize_call_protocol (settings : Settings) (b : Backend) (self : AIService) :
  let t := trace (snd (run (initialize settings) b self)) in
  releases t = 0%nat
  /\ (probes t <= constructions t <= 1)%nat
  /\ (construct b (OPENAI_API_KEY settings) <> None -> probes t = 0%nat)
  /\ (forall key, In (Constructed key) t -> key = OPENAI_API_KEY settings)
  /\ (forall c, In (Probed c) t -> api_key c = OPENAI_API_KEY settings).
Proof.
  unfold run. destruct (live_usage_dec settings) as [L | N].
  - rewrite (initialize_enabled settings b _ L). cbn [trace app].
    destruct (construct b (OPENAI_API_KEY settings)) as [e |];
      [destruct (is_Exception e)
      | destruct (chat_completions_create b _) as [e |]; [destruct (is_Exception e)|]];
      cbn [snd trace];
      (split; [reflexivity|]); (split; [cbn; lia|]);
      (split; [intros H; try reflexivity; contradiction|]);
      (split; [intros k I | intros c I]); cbn [In] in I;
      repeat (destruct I as [I | I]; try discriminate I; try (injection I as <-; reflexivity));
      contradiction.
  - rewrite (initialize_disabled settings b _ N). cbn [snd trace app].
    split; [reflexivity|]. split; [cbn; lia|]. split; [reflexivity|].
    split; [intros k I | intros c I]; cbn [In] in I;
      repeat (destruct I as [I | I]; try discriminate I); contradiction.
Qed.

(** X13: [except Exception] lets through what is no [Exception].  When the
    probe raises such an exception, [initialize] raises it to its caller,
    logs nothing, and leaves the engine holding the client that was never
    verified. *)
Theorem initialize_lets_through_what_is_no_Exception
    (settings : Settings) (b : Backend) (self : AIService) (e : exn) :
  live_usage settings ->
  construct b (OPENAI_API_KEY settings) = None ->
  chat_completions_create b {| api_key := OPENAI_API_KEY settings |} = Some e ->
  is_Exception e = false ->
  run (initialize settings) b self
  = (Raise e,
     {| this := {| client := Some {| api_key := OPENAI_API_KEY settings |} |};
        trace := [Constructed (OPENAI_API_KEY settings);
                  Probed {| api_key := OPENAI_API_KEY settings |}] |}).
Proof.
  intros L C P X. unfold run. rewrite (initialize_enabled settings b _ L), C, P, X.
  reflexivity.
Qed.

Lemma initialize_lets_through_what_is_no_Exception_witness :
  live_usage live_settings
  /\ construct cancelling_backend (OPENAI_API_KEY live_settings) = None
  /\ chat_completions_create cancelling_backend {| api_key := OPENAI_API_KEY live_settings |}
     = Some CancelledError
  /\ is_Exception CancelledError = false
  /\ run (initialize live_settings) cancelling_backend new_AIService
     = (Raise CancelledError,
        {| this := {| client := Some {| api_key := OPENAI_API_KEY live_settings |} |};
           trace := [Constructed (OPENAI_API_KEY live_settings);
                     Probed {| api_key := OPENAI_API_KEY live_settings |}] |}).
Proof.
  assert (L : live_usage live_settings) by (split; [reflexivity | discriminate]).
  split; [exact L|]. split; [reflexivity|]. split; [reflexivity|]. split; [reflexivity|].
  exact (initialize_lets_through_what_is_no_Exception live_settings cancelling_backend
           new_AIService CancelledError L eq_refl eq_refl eq_refl).
Defined.

(** X14: a run of [initialize] that returns has logged exactly one entry,
    and that entry is a warning exactly when live usage is configured and
    constructing the client or the probe failed; a run that raises has
    logged nothing. *)
Theorem initialize_logs_once (settings : Settings) (b : Backend) (self : AIService) :
  let t := trace (snd (run (initialize settings) b self)) in
  match fst (run (initialize settings) b self) with
  | Return _ =>
      logs t = 1%nat
      /\ (warnings t = 1%nat <-> live_usage settings /\ attempt_fails settings b)
      /\ (warnings t = 0%nat <-> ~ (live_usage settings /\ attempt_fails settings b))
  | Raise _ => logs t = 0%nat
  end.
Proof.
  unfold run, attempt_fails.
  assert (Warned : forall P : Prop, P ->
            (1%nat = 1%nat <-> P) /\ (1%nat = 0%nat <-> ~ P)).
  { intros P p. split; split; intros H; try reflexivity; try discriminate H; tauto. }
  assert (Quiet : forall P : Prop, ~ P ->
            (0%nat = 1%nat <-> P) /\ (0%nat = 0%nat <-> ~ P)).
  { intros P p. split; split; intros H; try reflexivity; try discriminate H; tauto. }
  destruct (live_usage_dec settings) as [L | N].
  - rewrite (initialize_enabled settings b _ L). cbn [trace app].
    destruct (construct b (OPENAI_API_KEY settings)) as [e |] eqn:C.
    + destruct (is_Exception e); cbn [fst snd trace]; [|reflexivity].
      split; [reflexivity|]. apply Warned. split; [exact L|]. left. discriminate.
    + destruct (chat_completions_create b _) as [e |] eqn:P.
      * destruct (is_Exception e); cbn [fst snd trace]; [|reflexivity].
        split; [reflexivity|]. apply Warned. split; [exact L|]. right. discriminate.
      * cbn [fst snd trace]. split; [reflexivity|]. apply Quiet.
        intros [_ [F | F]]; contradiction.
  - rewrite (initialize_disabled settings b _ N). cbn [fst snd trace app].
    split; [reflexivity|]. apply Quiet. intros [L _]. contradiction.
Qed.

(** X15: [cleanup] leaves the engine as it is, handle included, logs
    nothing, constructs and probes nothing, and does not catch: it raises
    exactly when a handle is retained and closing it raises, with that
    exception. *)
Theorem cleanup_keeps_the_engine_and_passes_errors (b : Backend) (w : world) :
  this (snd (cleanup b w)) = this w
  /\ logs (trace (snd (cleanup b w))) = logs (trace w)
  /\ probes (trace (snd (cleanup b w))) = probes (trace w)
  /\ constructions (trace (snd (cleanup b w))) = constructions (trace w)
  /\ (forall e,
        fst (cleanup b w) = Raise e
        <-> exists c, client (this w) = Some c /\ close b c = Some e).
Proof.
  rewrite cleanup_cases. destruct (client (this w)) as [c |] eqn:E; cbn [fst snd this trace].
  - rewrite logs_app, probes_app, constructions_app. cbn.
    repeat split; try lia.
    + intros H. exists c. split; [reflexivity|]. destruct (close b c); congruence.
    + intros (c' & Ec & Hc). injection Ec as <-. rewrite Hc. reflexivity.
  - repeat split; try discriminate. intros (c & Ec & _). discriminate Ec.
Qed.

Example cleanup_passes_close_error :
  run cleanup failing_close_backend live_engine
  = (Raise APIConnectionError,
     {| this := live_engine; trace := [Closed {| api_key := "sk-live" |}] |}).
Proof. reflexivity. Qed.

(** X16: start-up followed by shutdown, on a fresh engine and a backend that
    raises [Exception]s only.  If live usage is configured and both the
    construction and the probe return, [cleanup] closes the one client
    constructed; otherwise nothing is closed and both calls return: a client
    whose probe failed is dropped without being closed. *)
Theorem cleanup_after_initialize (settings : Settings) (b : Backend) :
  raises_Exceptions b ->
  let both := run (seq (initialize settings) (fun _ => cleanup)) b new_AIService in
  let t := trace (snd both) in
  (live_usage settings /\ ~ attempt_fails settings b ->
   releases t = 1%nat /\ constructions t = 1%nat
   /\ In (Closed {| api_key := OPENAI_API_KEY settings |}) t)
  /\ (~ (live_usage settings /\ ~ attempt_fails settings b) ->
      releases t = 0%nat /\ fst both = Return tt)
  /\ (live_usage settings ->
      construct b (OPENAI_API_KEY settings) = None ->
      chat_completions_create b {| api_key := OPENAI_API_KEY settings |} <> None ->
      constructions t = 1%nat /\ releases t = 0%nat).
Proof.
  intros [Hc Hp]. unfold run, seq, attempt_fails.
  destruct (live_usage_dec settings) as [L | N].
  - rewrite (initialize_enabled settings b _ L). cbn [trace app].
    destruct (construct b (OPENAI_API_KEY settings)) as [e |] eqn:C.
    + rewrite (Hc _ _ C), cleanup_cases. cbn [this client snd fst trace].
      split; [|split].
      * intros [_ F]. exfalso. apply F. left. discriminate.
      * intros _. split; reflexivity.
      * intros _ F. discriminate F.
    + destruct (chat_completions_create b _) as [e |] eqn:P.
      * rewrite (Hp _ _ P), cleanup_cases. cbn [this client snd fst trace].
        split; [|split].
        -- intros [_ F]. exfalso. apply F. right. discriminate.
        -- intros _. split; reflexivity.
        -- intros _ _ _. split; reflexivity.
      * rewrite cleanup_cases. cbn [this client snd fst trace].
        split; [|split].
        -- intros _. split; [reflexivity|]. split; [reflexivity|].
           cbn. right. right. right. left. reflexivity.
        -- intros F. exfalso. apply F. split; [exact L|]. intros [X | X]; contradiction.
        -- intros _ _ F. contradiction.
  - rewrite (initialize_disabled settings b _ N), cleanup_cases.
    cbn [this client snd fst trace new_AIService app].
    split; [|split].
    + intros [L _]. contradiction.
    + intros _. split; reflexivity.
    + intros L. contradiction.
Qed.

Lemma cleanup_after_initialize_witness :
  raises_Exceptions timing_out_backend
  /\ (live_usage live_settings ->
      construct timing_out_backend (OPENAI_API_KEY live_settings) = None ->
      chat_completions_create timing_out_backend
        {| api_key := OPENAI_API_KEY live_settings |} <> None ->
      constructions
        (trace (snd (run (seq (initialize live_settings) (fun _ => cleanup))
                         timing_out_backend new_AIService))) = 1%nat
      /\ releases
           (trace (snd (run (seq (initialize live_settings) (fun _ => cleanup))
                            timing_out_backend new_AIService))) = 0%nat).
Proof.
  assert (H : raises_Exceptions timing_out_backend).
  { split.
    - intros key e E. discriminate E.
    - intros c e E. injection E as <-. reflexivity. }
  split; [exact H|].
  exact (proj2 (proj2 (cleanup_after_initialize live_settings timing_out_backend H))).
Defined.

(** X17: calling [initialize] a second time repeats the whole attempt: on a
    backend that raises [Exception]s only, the engine ends in the state one
    call leaves it in, and twice as many clients are constructed and probes
    made; nothing is remembered from the first call. *)
Theorem initialize_again_probes_again (settings : Settings) (b : Backend) (self : AIService) :
  raises_Exceptions b ->
  let once := run (initialize settings) b self in
  let twice := run (seq (initialize settings) (fun _ => initialize settings)) b self in
  fst twice = Return tt
  /\ this (snd twice) = this (snd once)
  /\ probes (trace (snd twice)) = (2 * probes (trace (snd once)))%nat
  /\ constructions (trace (snd twice)) = (2 * constructions (trace (snd once)))%nat.
Proof.
  intros [Hc Hp]. unfold run, seq.
  destruct (live_usage_dec settings) as [L | N].
  - rewrite (initialize_enabled settings b _ L). cbn [trace app].
    destruct (construct b (OPENAI_API_KEY settings)) as [e |] eqn:C.
    + rewrite (Hc _ _ C), (initialize_enabled settings b _ L), C, (Hc _ _ C).
      cbn [fst snd this trace]. repeat split.
    + destruct (chat_completions_create b _) as [e |] eqn:P.
      * rewrite (Hp _ _ P), (initialize_enabled settings b _ L), C, P, (Hp _ _ P).
        cbn [fst snd this trace]. repeat split.
      * rewrite (initialize_enabled settings b _ L), C, P.
        cbn [fst snd this trace]. repeat split.
  - rewrite !(initialize_disabled settings b _ N). cbn [fst snd this trace]. repeat split.
Qed.

Lemma initialize_again_probes_again_witness :
  raises_Exceptions healthy_backend
  /\ fst (run (seq (initialize live_settings) (fun _ => initialize live_settings))
              healthy_backend new_AIService) = Return tt
  /\ this (snd (run (seq (initialize live_settings) (fun _ => initialize live_settings))
                    healthy_backend new_AIService))
     = this (snd (run (initialize live_settings) healthy_backend new_AIService))
  /\ probes (trace (snd (run (seq (initialize live_settings)
                                  (fun _ => initialize live_settings))
                             healthy_backend new_AIService)))
     = (2 * probes (trace (snd (run (initialize live_settings) healthy_backend
                                    new_AIService))))%nat
  /\ constructions (trace (snd (run (seq (initialize live_settings)
                                         (fun _ => initialize live_settings))
                                    healthy_backend new_AIService)))
     = (2 * constructions (trace (snd (run (initialize live_settings) healthy_backend
                                           new_AIService))))%nat.
Proof.
  assert (H : raises_Exceptions healthy_backend)
    by (split; intros ? e E; discriminate E).
  split; [exact H|].
  exact (initialize_again_probes_again live_settings healthy_backend new_AIService H).
Defined.

(** X18: the catalogue [__init__] builds is closed: a key has a profile
    exactly when it is "emotional", "direct", "passive-aggressive" or
    "logical", spelled so (keys are case-sensitive), and every profile has a
    description, a communication style and four traits, all text. *)
Theorem personality_catalogue_is_closed (key : string) :
  (lookup personality_templates key <> None
   <-> In key ["emotional"; "direct"; "passive-aggressive"; "logical"])
  /\ (forall profile,
        lookup personality_templates key = Some profile -> is_profile profile = true).
Proof.
  unfold personality_templates. cbn [lookup In].
  destruct (String.eqb_spec "emotional" key) as [<- | N1].
  { split; [split; [auto | discriminate] | intros p E; injection E as <-; reflexivity]. }
  destruct (String.eqb_spec "direct" key) as [<- | N2].
  { split; [split; [auto | discriminate] | intros p E; injection E as <-; reflexivity]. }
  destruct (String.eqb_spec "passive-aggressive" key) as [<- | N3].
  { split; [split; [auto | discriminate] | intros p E; injection E as <-; reflexivity]. }
  destruct (String.eqb_spec "logical" key) as [<- | N4].
  { split; [split; [auto 6 | discriminate] | intros p E; injection E as <-; reflexivity]. }
  split; [|intros p E; discriminate E].
  split; [intros F; contradiction | intros [E | [E | [E | [E | []]]]]; contradiction].
Qed.
